(** * USSD simulator: session lifecycle and local persistence

    A shallow embedding of the session controller of the USSD simulator
    ([src/components/USSDSimulator.tsx]), of the dial pad that calls it
    ([src/components/PhoneDialer.tsx]) and of the persistence helpers
    ([src/lib/db.ts], [src/hooks/useIndexedDB.ts]), followed by the
    properties of the session model that hold of that code, and the
    inputs at which some expected properties do not.

    Conventions.
    - An [async] function is a state transformer that either returns a
      value or throws: a rejected promise is a throw at its [await].
    - [Date.now()] and [new Date()] read a clock; the k-th reading of a run
      is [clock env k].  Dates are milliseconds since the epoch, in [Z].
    - The gateway and the IndexedDB engine are outside the program: what
      they answer is given by the environment [Env] as a function of the
      position of the call in the run.
    - A JavaScript string is a [string] whose characters are code units
      below 256. *)

From stdpp Require Import gmap strings list fin_maps pretty sorting.
From Stdlib Require Import ZArith Lia Permutation Sorted.

Local Open Scope Z_scope.

(** ** JavaScript values and control flow used by the program *)

Module Js.

(** What a [throw] (or a rejected promise) carries: an [Error] object
    with its [message], or some other value. *)
Inductive Thrown : Type :=
| ErrorObject (message : string)
| OtherValue.

(** The way a call ends. *)
Inductive Completion (A : Type) : Type :=
| Returns (a : A)
| Throws (e : Thrown).
Arguments Returns {A} a.
Arguments Throws {A} e.

(** An [async] function over a state [S]. *)
Definition Async (S A : Type) : Type := S -> Completion A * S.

Definition ret {S A} (a : A) : Async S A := fun s => (Returns a, s).

Definition bind {S A B} (m : Async S A) (k : A -> Async S B) : Async S B :=
  fun s =>
    match m s with
    | (Returns a, s') => k a s'
    | (Throws e, s') => (Throws e, s')
    end.

Definition throw {S A} (e : Thrown) : Async S A := fun s => (Throws e, s).

(** [try { body } catch (error) { handler }] *)
Definition tryCatch {S A} (body : Async S A) (handler : Thrown -> Async S A)
  : Async S A :=
  fun s =>
    match body s with
    | (Returns a, s') => (Returns a, s')
    | (Throws e, s') => handler e s'
    end.

(** [try { body } finally { cleanup }]: the cleanup runs on both exits,
    and the completion of the body stands unless the cleanup throws. *)
Definition tryFinally {S A} (body : Async S A) (cleanup : Async S unit)
  : Async S A :=
  fun s =>
    match body s with
    | (c, s') =>
        match cleanup s' with
        | (Returns _, s'') => (c, s'')
        | (Throws e, s'') => (Throws e, s'')
        end
    end.

Definition gets {S A} (f : S -> A) : Async S A := fun s => (Returns (f s), s).
Definition modify {S} (f : S -> S) : Async S unit := fun s => (Returns tt, f s).

(** Run [m] on a part of the state selected by [proj] and written back
    by [upd]. *)
Definition zoom {S T A} (proj : S -> T) (upd : T -> S -> S) (m : Async T A)
  : Async S A :=
  fun s => match m (proj s) with (c, t') => (c, upd t' s) end.

(** Truthiness of a string: every string but the empty one. *)
Definition truthy (s : string) : bool :=
  match s with EmptyString => false | String _ _ => true end.

(** [a || b] on strings. *)
Definition or_else (a b : string) : string := if truthy a then a else b.

(** White space and line terminators of ECMAScript among the code units
    below 256: TAB, LF, VT, FF, CR, SP and NBSP. *)
Definition isWhiteSpace (c : Ascii.ascii) : bool :=
  let n := Ascii.nat_of_ascii c in
  bool_decide (n = 9 \/ n = 10 \/ n = 11 \/ n = 12 \/ n = 13 \/ n = 32 \/ n = 160)%nat.

Fixpoint trimStart (s : string) : string :=
  match s with
  | EmptyString => EmptyString
  | String c s' => if isWhiteSpace c then trimStart s' else s
  end.

(** [trimEnd s] is the shortest prefix of [s] after which only white
    space follows. *)
Fixpoint trimEnd (s : string) : string :=
  match s with
  | EmptyString => EmptyString
  | String c s' =>
      match trimEnd s' with
      | EmptyString => if isWhiteSpace c then EmptyString else String c EmptyString
      | t => String c t
      end
  end.

(** [String.prototype.trim] *)
Definition trim (s : string) : string := trimEnd (trimStart s).

(** [Array.prototype.sort(compareFn)].  The sort is stable, and for a
    consistent comparator its result is the one of any stable sort:
    [a] stays before [b] unless [compareFn(a, b) > 0].  Taken here as
    the insertion of each element in front of the sorted rest. *)
Section Sort.
Context {A : Type} (compareFn : A -> A -> Z).

Fixpoint insertSorted (x : A) (l : list A) : list A :=
  match l with
  | [] => [x]
  | y :: l' =>
      if compareFn x y <=? 0 then x :: y :: l' else y :: insertSorted x l'
  end.

Definition sort (l : list A) : list A := foldr insertSorted [] l.
End Sort.

End Js.

Import Js.

Declare Scope async_scope.
Delimit Scope async_scope with async.
Notation "x <- m ;; k" := (bind m (fun x => k))
  (at level 100, m at next level, right associativity) : async_scope.
Notation "m ;; k" := (bind m (fun _ => k))
  (at level 100, right associativity) : async_scope.
Local Open Scope async_scope.

(** ** The Dexie table

    A table of records of type [V] with primary key [keyOf] (the first
    name of the schema given to [stores], ["id"] in both databases of the
    program).  Dexie opens the database on the first request, so each
    request either fails with what the engine reports ([fault k] for the
    k-th request made) or is carried out in full. *)

Module Dexie.
Section Table.
Context {V : Type} (keyOf : V -> string).
Variable fault : nat -> option Thrown.

Record State : Type := mkState {
  requests : nat;
  records : gmap string V
}.

Definition request {A} (act : gmap string V -> A * gmap string V)
  : Async State A :=
  fun st =>
    let st' := fun t => mkState (S (requests st)) t in
    match fault (requests st) with
    | Some e => (Throws e, st' (records st))
    | None => let '(a, t) := act (records st) in (Returns a, st' t)
    end.

(** Records in the order of their primary keys. *)
Definition inKeyOrder (t : gmap string V) : list V :=
  (merge_sort (fun x y : string * V => String.leb x.1 y.1) (map_to_list t)).*2.

(** [table.put(v)]: insert or replace the record with the key of [v];
    resolves to that key. *)
Definition put (v : V) : Async State string :=
  request (fun t => (keyOf v, <[keyOf v := v]> t)).

(** [table.get(k)]: the record or [undefined]. *)
Definition get (k : string) : Async State (option V) :=
  request (fun t => (t !! k, t)).

(** [table.delete(k)] *)
Definition delete (k : string) : Async State unit :=
  request (fun t => (tt, base.delete k t)).

(** [table.toArray()] *)
Definition toArray : Async State (list V) :=
  request (fun t => (inKeyOrder t, t)).

(** [table.clear()] *)
Definition clear : Async State unit :=
  request (fun t => (tt, ∅)).
End Table.
Arguments State V : clear implicits.
Arguments mkState {V} requests records.
Arguments requests {V} s.
Arguments records {V} s.
End Dexie.

(** ** [src/lib/db.ts] *)

Module Db.

Inductive Direction : Type := incoming | outgoing.

Record Message : Type := mkMessage {
  msg_id : string;
  content : string;
  timestamp : Z;
  direction : Direction
}.

Record USSDSession : Type := mkSession {
  id : string;
  name : string;
  phoneNumber : string;
  messages : list Message;
  isActive : bool;
  createdAt : Z;
  updatedAt : Z
}.

Section Helpers.
Variable fault : nat -> option Thrown.

Let DB : Type := Dexie.State USSDSession.

Definition getAllSessions : Async DB (list USSDSession) :=
  Dexie.toArray fault.

Definition getSession (k : string) : Async DB (option USSDSession) :=
  Dexie.get fault k.

Definition saveSession (session : USSDSession) : Async DB string :=
  Dexie.put id fault session ;;
  ret (id session).

Definition deleteSession (k : string) : Async DB unit :=
  Dexie.delete fault k.

Definition clearSessions : Async DB unit :=
  Dexie.clear fault.
End Helpers.

End Db.

(** ** [src/components/USSDSimulator.tsx] *)

Module Simulator.

Inductive MessageType : Type := request | response.

(** [USSDMessage]; the fields carry the prefix [msg_]. *)
Record USSDMessage : Type := mkMessage {
  msg_id : string;
  msg_type : MessageType;
  msg_text : string;
  msg_timestamp : Z;
  msg_sessionId : string
}.

(** [USSDSession]; an optional field that is absent is [None]. *)
Record USSDSession : Type := mkSession {
  id : string;
  messages : list USSDMessage;
  isActive : bool;
  startTime : Z;
  updatedAt : option Z;
  phoneNumber : option string;
  networkCode : option string
}.

(** [USSDConfig]; the fields carry the prefix [cfg_]. *)
Record USSDConfig : Type := mkConfig {
  cfg_endpoint : string;
  cfg_sessionId : string;
  cfg_phoneNumber : string;
  cfg_networkCode : string;
  cfg_timeout : Z
}.

Definition defaultConfig : USSDConfig :=
  {| cfg_endpoint := "";
     cfg_sessionId := "";
     cfg_phoneNumber := "+1234567890";
     cfg_networkCode := "001";
     cfg_timeout := 30000 |}.

(** The body sent to the gateway. *)
Record Payload : Type := mkPayload {
  sessionID : string;
  userID : string;
  newSession : bool;
  msisdn : string;
  userData : string
}.

(** What [response.json()] resolves to.  The simulator reads three
    properties of it, taken here at the types the gateway contract gives
    them (strings and a boolean); a property that is absent reads as
    [undefined], here [None].  A body that is a number, a string, a
    boolean or an array has none of the three and is the object without
    them.  [JsonNull] is the body [null], on which reading a property
    throws a [TypeError]. *)
Inductive ResponseData : Type :=
| JsonNull
| JsonObject (response message : option string) (continueSession : option bool).

Inductive Body : Type :=
| BodyInvalid (e : Thrown)          (* [response.json()] rejects *)
| BodyJson (responseData : ResponseData).

(** The [Response] that [fetch] resolves to. *)
Record Response : Type := mkResponse {
  status : Z;
  body : Body
}.

Inductive FetchOutcome : Type :=
| FetchRejects (e : Thrown)         (* no HTTP response was obtained *)
| FetchResponds (resp : Response).

(** [response.ok]: the status is in the range 200-299. *)
Definition ok (resp : Response) : bool :=
  (200 <=? status resp) && (status resp <=? 299).

(** One call of the gateway: where the request went, what it carried
    and what came back. *)
Record Exchange : Type := mkExchange {
  url : string;
  payload : Payload;
  outcome : FetchOutcome
}.

(** The world around the component. *)
Record Env : Type := mkEnv {
  clock : nat -> Z;
  storeFault : nat -> option Thrown;
  gateway : nat -> string -> Payload -> FetchOutcome;
  nullAccessMessage : string  (* the message of the engine's TypeError *)
}.

(** The state of the [USSDSimulator] component (its six [useState]
    cells), and of what it acts on: the clock readings made so far, the
    exchanges with the gateway so far, oldest first, and the database. *)
Record State : Type := mkState {
  config : USSDConfig;
  isLoading : bool;
  currentSession : option USSDSession;
  sessions : list USSDSession;
  showHistory : bool;
  dbError : option string;
  ticks : nat;
  sent : list Exchange;
  db : Dexie.State USSDSession
}.

Definition initialState (d : Dexie.State USSDSession) : State :=
  {| config := defaultConfig; isLoading := false; currentSession := None;
     sessions := []; showHistory := false; dbError := None;
     ticks := 0; sent := []; db := d |}.

Definition setConfig (c : USSDConfig) : Async State unit :=
  modify (fun s => mkState c (isLoading s) (currentSession s) (sessions s)
                     (showHistory s) (dbError s) (ticks s) (sent s) (db s)).
Definition setIsLoading (b : bool) : Async State unit :=
  modify (fun s => mkState (config s) b (currentSession s) (sessions s)
                     (showHistory s) (dbError s) (ticks s) (sent s) (db s)).
Definition setCurrentSession (c : option USSDSession) : Async State unit :=
  modify (fun s => mkState (config s) (isLoading s) c (sessions s)
                     (showHistory s) (dbError s) (ticks s) (sent s) (db s)).
Definition setSessions (l : list USSDSession) : Async State unit :=
  modify (fun s => mkState (config s) (isLoading s) (currentSession s) l
                     (showHistory s) (dbError s) (ticks s) (sent s) (db s)).
Definition setShowHistory (b : bool) : Async State unit :=
  modify (fun s => mkState (config s) (isLoading s) (currentSession s) (sessions s)
                     b (dbError s) (ticks s) (sent s) (db s)).
Definition setDbError (e : option string) : Async State unit :=
  modify (fun s => mkState (config s) (isLoading s) (currentSession s) (sessions s)
                     (showHistory s) e (ticks s) (sent s) (db s)).
Definition withDb (d : Dexie.State USSDSession) (s : State) : State :=
  mkState (config s) (isLoading s) (currentSession s) (sessions s)
    (showHistory s) (dbError s) (ticks s) (sent s) d.

(** [{...s, messages: ms, isActive: a, updatedAt: u}] *)
Definition withMessages (s : USSDSession) (ms : list USSDMessage) (a : bool) (u : Z)
  : USSDSession :=
  mkSession (id s) ms a (startTime s) (Some u) (phoneNumber s) (networkCode s).

(** The comparator of [loadSessions]: [updatedAt] newest first, a
    record without [updatedAt] counting as time 0. *)
Definition byUpdatedAt (a b : USSDSession) : Z :=
  let timeA := default 0 (updatedAt a) in
  let timeB := default 0 (updatedAt b) in
  timeB - timeA.

(** [new Date(s.updatedAt || s.startTime).getTime()] *)
Definition lastActivity (s : USSDSession) : Z := default (startTime s) (updatedAt s).

(** The comparator of the history panel. *)
Definition byLastActivity (a b : USSDSession) : Z := lastActivity b - lastActivity a.

(** The entries of the history panel, in the order they are rendered. *)
Definition historyEntries (s : State) : list USSDSession :=
  sort byLastActivity (sessions s).

Section Handlers.
Variable env : Env.

(** [Date.now()], and [new Date()] read as its time value. *)
Definition now : Async State Z :=
  fun s => (Returns (clock env (ticks s)),
            mkState (config s) (isLoading s) (currentSession s) (sessions s)
              (showHistory s) (dbError s) (S (ticks s)) (sent s) (db s)).

(** [db.sessions], the table of the component's own database. *)
Definition onTable {A} (m : Async (Dexie.State USSDSession) A) : Async State A :=
  zoom db withDb m.
Definition sessions_put (s : USSDSession) : Async State string :=
  onTable (Dexie.put id (storeFault env) s).
Definition sessions_delete (k : string) : Async State unit :=
  onTable (Dexie.delete (storeFault env) k).
Definition sessions_toArray : Async State (list USSDSession) :=
  onTable (Dexie.toArray (storeFault env)).

(** [fetch(endpoint, {method: 'POST', ..., body: JSON.stringify(payload)})] *)
Definition fetch (endpoint : string) (body : Payload) : Async State Response :=
  fun s =>
    let answer := gateway env (length (sent s)) endpoint body in
    let s' := mkState (config s) (isLoading s) (currentSession s) (sessions s)
                (showHistory s) (dbError s) (ticks s)
                (sent s ++ [mkExchange endpoint body answer]) (db s) in
    match answer with
    | FetchRejects e => (Throws e, s')
    | FetchResponds resp => (Returns resp, s')
    end.

(** [await response.json()] *)
Definition json (resp : Response) : Async State ResponseData :=
  match body resp with
  | BodyInvalid e => throw e
  | BodyJson d => ret d
  end.

(** [responseData.response || responseData.message || 'No response message'] *)
Definition responseText (d : ResponseData) : Async State string :=
  match d with
  | JsonNull => throw (ErrorObject (nullAccessMessage env))
  | JsonObject r m _ =>
      ret (or_else (default "" r) (or_else (default "" m) "No response message"))
  end.

(** [responseData.continueSession !== false] *)
Definition continues (d : ResponseData) : Async State bool :=
  match d with
  | JsonNull => throw (ErrorObject (nullAccessMessage env))
  | JsonObject _ _ c => ret (negb (bool_decide (c = Some false)))
  end.

(** [error instanceof Error ? error.message : 'Unknown error occurred'] *)
Definition describe (error : Thrown) : string :=
  match error with
  | ErrorObject m => m
  | OtherValue => "Unknown error occurred"
  end.

(** [loadSessions].  [r] is the render in which the function was
    created: the [isLoading] it tests is the one of that render. *)
Definition loadSessions (r : State) : Async State (list USSDSession) :=
  if isLoading r then ret [] else
  setIsLoading true ;;
  tryFinally
    (tryCatch
       (savedSessions <- sessions_toArray ;;
        let sortedSessions := sort byUpdatedAt savedSessions in
        setSessions sortedSessions ;;
        ret sortedSessions)
       (fun error =>
          setDbError (Some "Failed to load session history. Please refresh the page to try again.") ;;
          ret []))
    (setIsLoading false).

(** The effect run when the component is mounted. *)
Definition initializeSessions : Async State unit :=
  r <- gets (fun s => s) ;;
  tryCatch
    (loadSessions r ;;
     setCurrentSession None)
    (fun error =>
       setDbError (Some "Failed to initialize database. Session history will not be saved.")).

(** [handleUSSDRequest], the [onDial] of the dial pad.  [r] is the render
    in which the handler was created: [config], [currentSession] and
    the [isLoading] seen by [loadSessions] are the ones of that render. *)
Definition handleUSSDRequest (input : string) : Async State unit :=
  r <- gets (fun s => s) ;;
  if negb (truthy (cfg_endpoint (config r))) then ret tt else
  setIsLoading true ;;
  (* Create new session if none exists *)
  let isNewSession :=
    match currentSession r with
    | None => true
    | Some c => bool_decide (length (messages c) = 0%nat)
    end in
  updatedSession <-
    match currentSession r with
    | Some c => ret c
    | None =>
        newSessionId <- now ;;
        t1 <- now ;;
        t2 <- now ;;
        let created :=
          {| id := pretty newSessionId; messages := []; isActive := true;
             startTime := t1; updatedAt := Some t2;
             phoneNumber := Some (cfg_phoneNumber (config r));
             networkCode := Some (cfg_networkCode (config r)) |} in
        setCurrentSession (Some created) ;;
        ret created
    end ;;
  (* Add request message *)
  t3 <- now ;;
  t4 <- now ;;
  let requestMessage :=
    {| msg_id := pretty t3; msg_type := request; msg_text := input;
       msg_timestamp := t4; msg_sessionId := id updatedSession |} in
  t5 <- now ;;
  let updatedSession :=
    withMessages updatedSession (messages updatedSession ++ [requestMessage])
      (isActive updatedSession) t5 in
  setCurrentSession (Some updatedSession) ;;
  sessions_put updatedSession ;;
  tryFinally
    (tryCatch
       (let payload : Payload :=
          {| sessionID := id updatedSession;
             userID := cfg_phoneNumber (config r);
             newSession := isNewSession;
             msisdn := cfg_phoneNumber (config r);
             userData := input |} in
        (* Make the actual API call *)
        resp <- fetch (cfg_endpoint (config r)) payload ;;
        (if ok resp then ret tt
         else throw (ErrorObject ("HTTP error! status: " +:+ pretty (status resp)))) ;;
        responseData <- json resp ;;
        (* Create response message from API response *)
        t6 <- now ;;
        text <- responseText responseData ;;
        t7 <- now ;;
        let responseMessage :=
          {| msg_id := pretty (t6 + 1); msg_type := response; msg_text := text;
             msg_timestamp := t7; msg_sessionId := id updatedSession |} in
        active <- continues responseData ;;
        t8 <- now ;;
        let updatedSessionWithResponse :=
          withMessages updatedSession (messages updatedSession ++ [responseMessage])
            active t8 in
        (* Update both state and database *)
        setCurrentSession (Some updatedSessionWithResponse) ;;
        sessions_put updatedSessionWithResponse ;;
        (* Reload sessions to ensure UI is up to date *)
        loadSessions r ;;
        ret tt)
       (fun error =>
          (* [updatedSession] is an object here: the test [!updatedSession]
             of the source never holds *)
          t6 <- now ;;
          t7 <- now ;;
          let errorMessage :=
            {| msg_id := pretty (t6 + 1); msg_type := response;
               msg_text := "Error: " +:+ describe error;
               msg_timestamp := t7; msg_sessionId := id updatedSession |} in
          t8 <- now ;;
          let updatedSessionWithError :=
            withMessages updatedSession (messages updatedSession ++ [errorMessage])
              false t8 in
          setCurrentSession (Some updatedSessionWithError) ;;
          sessions_put updatedSessionWithError ;;
          ret tt))
    (setIsLoading false).

Definition loadSession (session : USSDSession) : Async State unit :=
  setCurrentSession (Some session) ;;
  setShowHistory false.

Definition toggleHistory : Async State unit :=
  r <- gets (fun s => s) ;;
  let willShowHistory := negb (showHistory r) in
  setShowHistory willShowHistory ;;
  if willShowHistory then loadSessions r ;; ret tt else ret tt.

Definition handleEndSession : Async State unit :=
  r <- gets (fun s => s) ;;
  match currentSession r with
  | None => ret tt
  | Some c =>
      tryCatch
        (t <- now ;;
         let updatedSession := withMessages c (messages c) false t in
         setCurrentSession (Some updatedSession) ;;
         sessions_put updatedSession ;;
         loadSessions r ;;
         ret tt)
        (fun error => ret tt)
  end.

Definition handleNewSession : Async State unit :=
  setCurrentSession None.

Definition handleClearSession : Async State unit :=
  r <- gets (fun s => s) ;;
  match currentSession r with
  | None => ret tt
  | Some c =>
      tryCatch
        (sessions_delete (id c) ;;
         setCurrentSession None ;;
         loadSessions r ;;
         ret tt)
        (fun error => ret tt)
  end.

Definition handleDeleteSession (sessionId : string) : Async State unit :=
  r <- gets (fun s => s) ;;
  tryCatch
    (sessions_delete sessionId ;;
     (if bool_decide (id <$> currentSession r = Some sessionId)
      then setCurrentSession None else ret tt) ;;
     loadSessions r ;;
     ret tt)
    (fun error => ret tt).

(** The operations of the controller.  [LoadSession n] and
    [DeleteSession n] act on the n-th entry of the history panel, the
    only place the session they are given comes from. *)
Inductive Operation : Type :=
| Submit (input : string)
| EndSession
| NewSession
| ClearSession
| LoadSession (n : nat)
| DeleteSession (n : nat)
| ToggleHistory
| SetConfig (c : USSDConfig).

Definition perform (op : Operation) : Async State unit :=
  match op with
  | Submit input => handleUSSDRequest input
  | EndSession => handleEndSession
  | NewSession => handleNewSession
  | ClearSession => handleClearSession
  | LoadSession n =>
      entries <- gets historyEntries ;;
      match entries !! n with
      | Some session => loadSession session
      | None => ret tt
      end
  | DeleteSession n =>
      entries <- gets historyEntries ;;
      match entries !! n with
      | Some session => handleDeleteSession (id session)
      | None => ret tt
      end
  | ToggleHistory => toggleHistory
  | SetConfig c => setConfig c
  end.

(** The state after a sequence of operations, each run to its end;
    an operation that throws leaves the state it reached. *)
Definition performAll (ops : list Operation) (s : State) : State :=
  foldl (fun s op => (perform op s).2) s ops.

End Handlers.

(** Whether the rendered page offers an operation: the dial pad is shown
    in place of the history panel, and its button is disabled while
    [isLoading] or when the input is blank; the end button is disabled on
    a session that is not active; [handleNewSession] is passed to
    [USSDDisplay], which has no control for it. *)
Definition offered (op : Operation) (s : State) : bool :=
  match op with
  | Submit input =>
      negb (showHistory s) && negb (isLoading s) && truthy (trim input)
  | EndSession =>
      match currentSession s with Some c => isActive c | None => false end
  | NewSession => false
  | ClearSession => bool_decide (is_Some (currentSession s))
  | LoadSession n | DeleteSession n =>
      showHistory s && bool_decide (is_Some (historyEntries s !! n))
  | ToggleHistory => true
  | SetConfig _ => true
  end.

(** Every operation of [ops] is offered in the state it is run in. *)
Fixpoint allOffered (env : Env) (ops : list Operation) (s : State) : bool :=
  match ops with
  | [] => true
  | op :: ops' => offered op s && allOffered env ops' (perform env op s).2
  end.

End Simulator.

(** ** [src/hooks/useIndexedDB.ts]

    The hook keeps the handle of the database it opened in a state cell.
    Its object store ["sessions"] has the key path ["id"] and behaves as
    the table above: a request is carried out in full or fails. *)

Module UseIndexedDB.

Inductive IDBDatabase : Type := Handle.

(** The cells of the hook as the render that created the callbacks sees
    them. *)
Record Render : Type := mkRender {
  db : option IDBDatabase;
  isLoading : bool;
  error : option Thrown
}.

(** A promise settles, or stays pending for ever. *)
Inductive Promise (A : Type) : Type :=
| Settled (a : A)
| Pending.
Arguments Settled {A} a.
Arguments Pending {A}.

(** [waitForDB].  Without a handle and while loading, [checkDB] arms its
    timer again at every run: the [db] and [isLoading] it tests are the
    constants of the render, so the promise is never settled. *)
Definition waitForDB (h : Render) : Promise (Completion IDBDatabase) :=
  match db h with
  | Some d => Settled (Returns d)
  | None =>
      if isLoading h then Pending
      else Settled (Throws (ErrorObject "Database not initialized"))
  end.

(** [checkDB], the function that [waitForDB] hands to [setTimeout] when
    it finds no handle while loading, after the given number of firings of
    the timer; [None] while the promise is not settled.  Each firing tests
    the [db] and [isLoading] of the render and, finding neither changed,
    arms the timer again. *)
Fixpoint checkDB (h : Render) (firings : nat) : option (Completion IDBDatabase) :=
  match firings with
  | O => None
  | S n =>
      match db h with
      | Some d => Some (Returns d)
      | None =>
          if negb (isLoading h)
          then Some (Throws (ErrorObject "Failed to initialize database"))
          else checkDB h n
      end
  end.

(** The promise of [waitForDB] once the timer has fired that many times. *)
Definition waitForDBAfter (h : Render) (firings : nat) : option (Completion IDBDatabase) :=
  match db h with
  | Some d => Some (Returns d)
  | None =>
      if isLoading h then checkDB h firings
      else Some (Throws (ErrorObject "Database not initialized"))
  end.

Section Callbacks.
Variable fault : nat -> option Thrown.
Variable h : Render.

Let Store : Type := Dexie.State Simulator.USSDSession.

(** [const db = await waitForDB(); return new Promise(...)] *)
Definition withDB {A} (m : Async Store A) (st : Store) : Promise (Completion A * Store) :=
  match waitForDB h with
  | Pending => Pending
  | Settled (Throws e) => Settled (Throws e, st)
  | Settled (Returns _) => Settled (m st)
  end.

Definition saveSession (session : Simulator.USSDSession)
  : Store -> Promise (Completion unit * Store) :=
  withDB (Dexie.put Simulator.id fault session ;; ret tt).

Definition getAllSessions : Store -> Promise (Completion (list Simulator.USSDSession) * Store) :=
  withDB (Dexie.toArray fault).

Definition getSession (k : string)
  : Store -> Promise (Completion (option Simulator.USSDSession) * Store) :=
  withDB (Dexie.get fault k).

Definition deleteSession (k : string) : Store -> Promise (Completion unit * Store) :=
  withDB (Dexie.delete fault k).
End Callbacks.

End UseIndexedDB.

(** ** [src/components/PhoneDialer.tsx] *)

Module PhoneDialer.
Section Dialer.
(** The state of the parent component, and the [onDial] it passes. *)
Context {P : Type} (onDial : string -> Async P unit).

(** The two [useState] cells of the dial pad, beside the state of the
    parent. *)
Record State : Type := mkState {
  input : string;
  isLoading : bool;
  parent : P
}.

Definition setInput (i : string) : Async State unit :=
  modify (fun d => mkState i (isLoading d) (parent d)).
Definition setIsLoading (b : bool) : Async State unit :=
  modify (fun d => mkState (input d) b (parent d)).
Definition inParent {A} (m : Async P A) : Async State A :=
  zoom parent (fun p d => mkState (input d) (isLoading d) p) m.

(** [prev.slice(0, -1)] *)
Fixpoint dropLast (s : string) : string :=
  match s with
  | EmptyString => EmptyString
  | String c EmptyString => EmptyString
  | String c s' => String c (dropLast s')
  end.

Definition handleKeyPress (key : string) : Async State unit :=
  d <- gets (fun d => d) ;;
  if bool_decide (key = "clear") then setInput ""
  else if bool_decide (key = "backspace") then setInput (dropLast (input d))
  else setInput (input d +:+ key).

Definition handleSubmit : Async State unit :=
  d <- gets (fun d => d) ;;
  if truthy (trim (input d)) then
    setIsLoading true ;;
    tryFinally
      (inParent (onDial (input d)) ;;
       setInput "")
      (setIsLoading false)
  else ret tt.

Definition handleCall : Async State unit :=
  d <- gets (fun d => d) ;;
  if truthy (trim (input d)) then
    setIsLoading true ;;
    tryFinally
      (inParent (onDial (input d)) ;;
       setInput "")
      (setIsLoading false)
  else ret tt.
End Dialer.
Arguments State P : clear implicits.
Arguments mkState {P} input isLoading parent.
Arguments input {P} s.
Arguments isLoading {P} s.
Arguments parent {P} s.

(** The [disabled] attribute of the call button. *)
Definition callDisabled {P} (d : State P) (disabled : bool) : bool :=
  negb (truthy (trim (input d))) || disabled || isLoading d.

(** The text of the call button. *)
Definition callLabel {P} (d : State P) (isSessionActive : bool) : string :=
  if isLoading d then "Sending..." else if isSessionActive then "Send" else "Dial".
End PhoneDialer.

(** ** [src/components/ConfigPanel.tsx] *)

Module ConfigPanel.

(** A call of [handleConfigChange(field, value)] from one of the four
    text inputs.  The fifth input passes [parseInt] of its text, which can
    be [NaN]; it has no place in a configuration whose timeout is a number
    of milliseconds and is left out. *)
Inductive Change : Type :=
| endpoint (value : string)
| sessionId (value : string)
| phoneNumber (value : string)
| networkCode (value : string).

(** [{...config, [field]: value}], what [onConfigChange] receives. *)
Definition handleConfigChange (config : Simulator.USSDConfig) (change : Change)
  : Simulator.USSDConfig :=
  match change with
  | endpoint v =>
      Simulator.mkConfig v (Simulator.cfg_sessionId config)
        (Simulator.cfg_phoneNumber config) (Simulator.cfg_networkCode config)
        (Simulator.cfg_timeout config)
  | sessionId v =>
      Simulator.mkConfig (Simulator.cfg_endpoint config) v
        (Simulator.cfg_phoneNumber config) (Simulator.cfg_networkCode config)
        (Simulator.cfg_timeout config)
  | phoneNumber v =>
      Simulator.mkConfig (Simulator.cfg_endpoint config) (Simulator.cfg_sessionId config)
        v (Simulator.cfg_networkCode config) (Simulator.cfg_timeout config)
  | networkCode v =>
      Simulator.mkConfig (Simulator.cfg_endpoint config) (Simulator.cfg_sessionId config)
        (Simulator.cfg_phoneNumber config) v (Simulator.cfg_timeout config)
  end.

(** What [resetConfig] passes to [onConfigChange]. *)
Definition resetConfig : Simulator.USSDConfig :=
  {| Simulator.cfg_endpoint := "http://localhost:8000/ussd";
     Simulator.cfg_sessionId := "";
     Simulator.cfg_phoneNumber := "+1234567890";
     Simulator.cfg_networkCode := "001";
     Simulator.cfg_timeout := 30000 |}.

End ConfigPanel.

(** ** What the page shows of a session *)

Module Display.

(** [s.slice(-n)]: the last [n] characters, all of [s] when it is
    shorter. *)
Definition sliceFromEnd (n : nat) (s : string) : string :=
  String.substring (String.length s - n) n s.

(** The title of an entry of the history panel
    ([USSDSimulator.tsx], lines 352-355): the first 20 characters of the
    text of the first message, or ['New Session'], followed by ['...'] when
    that text is longer than 20. *)
Definition entryTitle (session : Simulator.USSDSession) : string :=
  let text := Simulator.msg_text <$> head (Simulator.messages session) in
  or_else (default "" (String.substring 0 20 <$> text)) "New Session"
  +:+ (if bool_decide (20 < default 0 (String.length <$> text))%nat then "..." else "").

(** The session tag of [USSDDisplay]: [session.id.slice(-6)]. *)
Definition sessionTag (session : Simulator.USSDSession) : string :=
  sliceFromEnd 6 (Simulator.id session).

(** The [isSessionActive] passed to the dial pad
    ([!!currentSession?.messages.length]). *)
Definition isSessionActive (s : Simulator.State) : bool :=
  match Simulator.currentSession s with
  | Some c => negb (bool_decide (length (Simulator.messages c) = 0%nat))
  | None => false
  end.

End Display.

(** * Properties *)

Import Simulator.

(** The messages of the current session, none when there is no session. *)
Definition priorMessages (s : State) : list USSDMessage :=
  match currentSession s with Some c => messages c | None => [] end.

(** What the exchange [o] makes the [try] block of [handleUSSDRequest]
    throw before a response message is built, if anything: the rejection
    of [fetch], the error raised on a status outside 200-299, the
    rejection of [response.json()], or the [TypeError] of a [null] body. *)
Definition failure (env : Env) (o : FetchOutcome) : option Thrown :=
  match o with
  | FetchRejects e => Some e
  | FetchResponds resp =>
      if ok resp then
        match body resp with
        | BodyInvalid e => Some e
        | BodyJson JsonNull => Some (ErrorObject (nullAccessMessage env))
        | BodyJson (JsonObject _ _ _) => None
        end
      else Some (ErrorObject ("HTTP error! status: " +:+ pretty (status resp)))
  end.

(** The state with another configuration. *)
Definition withConfig (k : USSDConfig) (s : State) : State :=
  mkState k (isLoading s) (currentSession s) (sessions s) (showHistory s) (dbError s)
    (ticks s) (sent s) (db s).

(** The operations that work on the session on display or leave it
    alone; the others replace it or put it away. *)
Definition keepsSession (op : Operation) : bool :=
  match op with
  | Submit _ | EndSession | ToggleHistory | SetConfig _ => true
  | NewSession | ClearSession | LoadSession _ | DeleteSession _ => false
  end.

(** Every character of the string is white space. *)
Fixpoint blank (s : string) : bool :=
  match s with
  | EmptyString => true
  | String c s' => isWhiteSpace c && blank s'
  end.

(** The messages alternate between the two directions, the first being
    a request. *)
Definition alternating (ms : list USSDMessage) : Prop :=
  forall i m, ms !! i = Some m ->
    msg_type m = if Nat.even i then request else response.

(** Every message of the session names the session as its owner. *)
Definition owned (c : USSDSession) : Prop :=
  forall m, m ∈ messages c -> msg_sessionId m = id c.

(** A transcript in which every request has got its response. *)
Definition settled (c : USSDSession) : Prop :=
  alternating (messages c) /\ Nat.Even (length (messages c)) /\ owned c.

(** Every session the component holds or has stored is settled. *)
Definition allSettled (s : State) : Prop :=
  (forall c, currentSession s = Some c -> settled c)
  /\ Forall settled (sessions s)
  /\ map_Forall (fun _ c => settled c) (Dexie.records (db s)).

(** ** Concrete runs *)
Module Scenario.
Definition config : USSDConfig :=
  {| cfg_endpoint := "http://x/ussd"; cfg_sessionId := ""; cfg_phoneNumber := "+1";
     cfg_networkCode := "001"; cfg_timeout := 5000 |}.

Definition time (k : nat) : Z := 1700000000000 + Z.of_nat k.

Definition answers (r m : option string) (c : option bool) : FetchOutcome :=
  FetchResponds (mkResponse 200 (BodyJson (JsonObject r m c))).

Definition menu : FetchOutcome := answers (Some "Menu") None (Some true).

Definition typeError : string := "Cannot read properties of null (reading 'response')".

(** The store works and the gateway answers with a menu. *)
Definition reliable : Env :=
  {| clock := time; storeFault := fun _ => None; gateway := fun _ _ _ => menu;
     nullAccessMessage := typeError |}.

(** The gateway answers with [o]. *)
Definition answering (o : FetchOutcome) : Env :=
  {| clock := time; storeFault := fun _ => None; gateway := fun _ _ _ => o;
     nullAccessMessage := typeError |}.

(** IndexedDB is not available: every request is rejected. *)
Definition noStore : Env :=
  {| clock := time;
     storeFault := fun _ => Some (ErrorObject "IndexedDB API missing");
     gateway := fun _ _ _ => menu;
     nullAccessMessage := typeError |}.

(** The k-th request to the database is rejected, the others are
    carried out; the first call of the gateway gets no answer, the
    later ones the menu. *)
Definition rejectingWrite (k : nat) : Env :=
  {| clock := time;
     storeFault := fun n =>
       if bool_decide (n = k) then Some (ErrorObject "QuotaExceededError") else None;
     gateway := fun n _ _ =>
       if bool_decide (n = 0%nat) then FetchRejects (ErrorObject "Failed to fetch")
       else menu;
     nullAccessMessage := typeError |}.

(** The page once mounted and given the configuration. *)
Definition opened (env : Env) : State :=
  performAll env [SetConfig config]
    (initializeSessions env (initialState (Dexie.mkState 0 ∅))).2.

(** A database of [src/lib/db.ts] that holds one session, and that
    session as it is saved later. *)
Definition store : Dexie.State Db.USSDSession :=
  Dexie.mkState 4 {[ "17" := Db.mkSession "17" "Balance" "+1" [] true 17 17 ]}.

Definition saved : Db.USSDSession :=
  Db.mkSession "17" "Balance" "+1"
    [Db.mkMessage "18" "*123#" 18 Db.outgoing; Db.mkMessage "19" "Menu" 19 Db.incoming]
    false 17 23.

(** Three stored sessions, the first of which has no [updatedAt], and a
    page that holds them. *)
Definition older : USSDSession := mkSession "50" [] false 50 None None None.
Definition oldest : USSDSession := mkSession "10" [] false 10 (Some 30) None None.
Definition newest : USSDSession := mkSession "60" [] true 60 (Some 70) None None.

Definition withHistory : State :=
  {| Simulator.config := config; isLoading := false; currentSession := None;
     sessions := [older; oldest; newest]; showHistory := true; dbError := None;
     ticks := 0; sent := []; db := Dexie.mkState 1 ∅ |}.

(** The first dial was answered and the user then ended the session,
    which stays on display. *)
Definition ended : State :=
  performAll reliable [Submit "*123#"; EndSession] (opened reliable).

Definition endedSession : USSDSession :=
  {| id := "1700000000000";
     messages :=
       [mkMessage "1700000000003" request "*123#" 1700000000004 "1700000000000";
        mkMessage "1700000000007" response "Menu" 1700000000007 "1700000000000"];
     isActive := false;
     startTime := 1700000000001;
     updatedAt := Some 1700000000009;
     phoneNumber := Some "+1";
     networkCode := Some "001" |}.
End Scenario.

(** Further values for the instances of the properties. *)
Module Cases.
(** The configuration of the runs with a session identifier of its own
    and a timeout of one millisecond. *)
Definition renamed : USSDConfig :=
  {| cfg_endpoint := "http://x/ussd"; cfg_sessionId := "USSD-1"; cfg_phoneNumber := "+1";
     cfg_networkCode := "001"; cfg_timeout := 1 |}.

(** The exchange of the first dial of the mounted page. *)
Definition firstDial : Exchange :=
  mkExchange "http://x/ussd" (mkPayload "1700000000000" "+1" true "+1" "*123#")
    Scenario.menu.

(** The exchange of a dial into the session of [Scenario.ended] after the
    phone number was changed. *)
Definition secondDial : Exchange :=
  mkExchange "http://x/ussd" (mkPayload "1700000000000" "+2" false "+2" "1")
    Scenario.menu.

(** The dial pad with a code typed in. *)
Definition typed : PhoneDialer.State State :=
  PhoneDialer.mkState "*123#" false (Scenario.opened Scenario.reliable).

(** A table of three sessions, and the page once it has loaded them. *)
Definition archive : Dexie.State USSDSession :=
  Dexie.mkState 0
    (<["50" := Scenario.older]> (<["10" := Scenario.oldest]> {["60" := Scenario.newest]})).

Definition listed : State :=
  (loadSessions Scenario.reliable (initialState archive) (initialState archive)).2.

(** A table that holds the answered session of [Scenario.ended], and the
    operations that take a session from the history and dial into it. *)
Definition answered : Dexie.State USSDSession :=
  Dexie.mkState 0 {[ "1700000000000" := Scenario.endedSession ]}.

Definition redial : list Operation :=
  [SetConfig Scenario.config; ToggleHistory; LoadSession 0; Submit "1"].

(** The record that the first dial of [Scenario.opened] writes before it
    calls the gateway: the session with the request alone. *)
Definition unanswered : USSDSession :=
  {| id := "1700000000000";
     messages :=
       [mkMessage "1700000000003" request "*123#" 1700000000004 "1700000000000"];
     isActive := true;
     startTime := 1700000000001;
     updatedAt := Some 1700000000005;
     phoneNumber := Some "+1";
     networkCode := Some "001" |}.

(** The page mounted over a database that holds [session], and given the
    configuration. *)
Definition reopened (env : Env) (session : USSDSession) : State :=
  performAll env [SetConfig Scenario.config]
    (initializeSessions env
       (initialState (Dexie.mkState 0 {[ id session := session ]}))).2.

(** A database engine that rejects every request. *)
Definition unavailable : nat -> option Thrown :=
  fun _ => Some (ErrorObject "IndexedDB API missing").

(** A render of the hook that holds the handle. *)
Definition opened : UseIndexedDB.Render :=
  UseIndexedDB.mkRender (Some UseIndexedDB.Handle) false None.
End Cases.

(** ** Symbolic execution of the handlers *)

Ltac unfold_handlers :=
  cbv [perform handleUSSDRequest handleEndSession handleNewSession handleClearSession
       handleDeleteSession loadSession toggleHistory loadSessions initializeSessions
       bind ret gets modify tryCatch tryFinally throw zoom now fetch json
       responseText continues sessions_put sessions_delete sessions_toArray onTable
       Dexie.put Dexie.delete Dexie.toArray Dexie.request
       setIsLoading setCurrentSession setSessions setShowHistory setDbError setConfig
       withDb] in *.

Ltac split_cases := repeat (case_match; simpl in *; simplify_eq).

Ltac same_lhs :=
  repeat match goal with
    | H1 : ?a = _, H2 : ?a = _ |- _ => rewrite H1 in H2; simplify_eq
    end.

(** A log that grew by one entry. *)
Lemma app_singleton_inv {A} (l : list A) (x y : A) : l ++ [x] = l ++ [y] -> x = y.
Proof. intros H. apply app_inv_head in H. congruence. Qed.

Lemma app_singleton_neq {A} (l : list A) (x : A) : l <> l ++ [x].
Proof.
  intros H. apply (f_equal length) in H. rewrite length_app in H. simpl in H. lia.
Qed.

Section Submit.
Variable env : Env.
Variable input : string.
Variable s : State.

Local Abbreviation after := ((handleUSSDRequest env input s).2).

(** With no endpoint configured the call does nothing. *)
Lemma submit_without_endpoint :
  truthy (cfg_endpoint (config s)) = false ->
  handleUSSDRequest env input s = (Returns tt, s).
Proof.
  intros H. unfold handleUSSDRequest, bind, gets, ret. simpl. now rewrite H.
Qed.

(** The database rejects the write of the session that carries the
    request: the rejection leaves the call, after the request was
    appended in memory and before the gateway is called. *)
Lemma submit_rejected_write (e : Thrown) :
  truthy (cfg_endpoint (config s)) = true ->
  storeFault env (Dexie.requests (db s)) = Some e ->
  exists cur req,
    handleUSSDRequest env input s = (Throws e, after)
    /\ currentSession after = Some cur
    /\ messages cur = priorMessages s ++ [req]
    /\ msg_type req = request
    /\ sent after = sent s
    /\ isLoading after = true
    /\ dbError after = dbError s
    /\ showHistory after = showHistory s
    /\ Dexie.records (db after) = Dexie.records (db s).
Proof.
  unfold priorMessages. unfold_handlers. simpl.
  intros -> Hput. simpl.
  destruct (currentSession s); simpl; rewrite Hput; simpl;
    eexists _, _; repeat split; reflexivity.
Qed.

(** The write is accepted: one exchange with the gateway takes place,
    and the session in memory ends with the request and one message of
    type [response], which carries the answer or the error. *)
Lemma submit_exchange :
  truthy (cfg_endpoint (config s)) = true ->
  storeFault env (Dexie.requests (db s)) = None ->
  exists base req rsp x final,
    (forall c, currentSession s = Some c -> base = c)
    /\ (currentSession s = None ->
        id base = pretty (clock env (ticks s)) /\ isActive base = true)
    /\ messages base = priorMessages s
    /\ sent after = sent s ++ [x]
    /\ url x = cfg_endpoint (config s)
    /\ payload x = mkPayload (id base) (cfg_phoneNumber (config s))
                     (bool_decide (length (messages base) = 0%nat))
                     (cfg_phoneNumber (config s)) input
    /\ outcome x = gateway env (length (sent s)) (url x) (payload x)
    /\ currentSession after = Some final
    /\ id final = id base
    /\ messages final = messages base ++ [req; rsp]
    /\ msg_type req = request /\ msg_text req = input /\ msg_sessionId req = id base
    /\ msg_type rsp = response /\ msg_sessionId rsp = id base
    /\ isLoading after = false
    /\ (forall e, failure env (outcome x) = Some e ->
          msg_text rsp = "Error: " +:+ describe e /\ isActive final = false)
    /\ (forall e, failure env (outcome x) = None ->
          storeFault env (S (Dexie.requests (db s))) = Some e ->
          msg_text rsp = "Error: " +:+ describe e /\ isActive final = false)
    /\ (forall resp r m c,
          outcome x = FetchResponds resp -> ok resp = true ->
          body resp = BodyJson (JsonObject r m c) ->
          storeFault env (S (Dexie.requests (db s))) = None ->
          msg_text rsp = or_else (default "" r) (or_else (default "" m) "No response message")
          /\ isActive final = negb (bool_decide (c = Some false))).
Proof.
  unfold priorMessages, failure. unfold_handlers. simpl.
  intros -> Hput. simpl.
  destruct (currentSession s) as [c|]; simpl; rewrite Hput; simpl.
  all: split_cases.
  all: lazymatch goal with
       | c : USSDSession |- _ => exists c
       | |- _ =>
           exists (mkSession (pretty (clock env (ticks s))) [] true
                     (clock env (S (ticks s))) (Some (clock env (S (S (ticks s)))))
                     (Some (cfg_phoneNumber (config s)))
                     (Some (cfg_networkCode (config s))))
       end.
  all: eexists _, _, _, _; rewrite <- ?app_assoc; simpl.
  all: repeat split; simpl; intros; simpl in *; simplify_eq; rewrite <- ?app_assoc;
    simpl in *; split_cases; same_lhs; try done.
Qed.

(** The gateway is only called once an endpoint is configured and the
    write of the request was accepted. *)
Lemma exchange_took_place (x : Exchange) :
  sent after = sent s ++ [x] ->
  truthy (cfg_endpoint (config s)) = true
  /\ storeFault env (Dexie.requests (db s)) = None.
Proof.
  intros Hsent.
  destruct (truthy (cfg_endpoint (config s))) eqn:Hep.
  - split; [reflexivity|].
    destruct (storeFault env (Dexie.requests (db s))) as [e|] eqn:Hput; [|reflexivity].
    destruct (submit_rejected_write e Hep Hput) as (cur & req & _ & _ & _ & _ & Hs & _).
    rewrite Hs in Hsent. now apply app_singleton_neq in Hsent.
  - rewrite (submit_without_endpoint Hep) in Hsent. simpl in Hsent.
    now apply app_singleton_neq in Hsent.
Qed.
End Submit.

(** ** The exchange made by [handleUSSDRequest] *)



(** C5 (amended). When the gateway answers with a status in 200-299 and a
    JSON object, and the write of the session is accepted, the text of the
    appended response message is the field [response] if it is present
    and not empty, else the field [message] if it is present and not
    empty, else ["No response message"]; and [isActive] becomes the field
    [continueSession] when it is present, and true when it is absent. *)
Theorem answered_exchange_appends_response
  (env : Env) (input : string) (s : State) (x : Exchange) (resp : Response)
  (r m : option string) (c : option bool) :
  sent (handleUSSDRequest env input s).2 = sent s ++ [x] ->
  outcome x = FetchResponds resp ->
  ok resp = true ->
  body resp = BodyJson (JsonObject r m c) ->
  storeFault env (S (Dexie.requests (db s))) = None ->
  exists cur req rsp,
    currentSession (handleUSSDRequest env input s).2 = Some cur
    /\ messages cur = priorMessages s ++ [req; rsp]
    /\ msg_type req = request
    /\ msg_type rsp = response
    /\ msg_text rsp =
       match r with
       | Some (String a t) => String a t
       | _ => match m with
              | Some (String a t) => String a t
              | _ => "No response message"
              end
       end
    /\ isActive cur = match c with Some b => b | None => true end.
Proof.
  intros Hsent Hout Hok Hbody Hput2.
  destruct (exchange_took_place env input s x Hsent) as [Hep Hput].
  destruct (submit_exchange env input s Hep Hput)
    as (base & req & rsp & x' & final & _ & _ & Hms & Hlog & _ & _ & _ & Hcur & _
        & Hfinal & Hreq & _ & _ & Hrsp & _ & _ & _ & _ & Hanswer).
  rewrite Hlog in Hsent. apply app_singleton_inv in Hsent. subst x'.
  destruct (Hanswer resp r m c Hout Hok Hbody Hput2) as [Htext Hactive].
  exists final, req, rsp. rewrite <- Hms.
  repeat split; try assumption.
  - rewrite Htext. destruct r as [[|a t]|], m as [[|a' t']|]; reflexivity.
  - rewrite Hactive. destruct c as [[|]|]; reflexivity.
Qed.

(** The first dial, answered with the menu. *)
Lemma answered_exchange_witness :
  exists cur req rsp,
    currentSession
      (handleUSSDRequest Scenario.reliable "*123#" (Scenario.opened Scenario.reliable)).2
    = Some cur
    /\ messages cur = priorMessages (Scenario.opened Scenario.reliable) ++ [req; rsp]
    /\ msg_type req = request
    /\ msg_type rsp = response
    /\ msg_text rsp = "Menu"
    /\ isActive cur = true.
Proof.
  apply (answered_exchange_appends_response Scenario.reliable "*123#" _
           (mkExchange "http://x/ussd"
              (mkPayload "1700000000000" "+1" true "+1" "*123#") Scenario.menu)
           (mkResponse 200 (BodyJson (JsonObject (Some "Menu") None (Some true))))
           (Some "Menu") None (Some true)).
  - vm_compute. reflexivity.
  - reflexivity.
  - reflexivity.
  - reflexivity.
  - reflexivity.
Defined.

(** C5, as stated, fails: a field [response] that is present and empty is
    passed over.  The gateway answers
    [{"response": "", "message": "Balance: 5"}]; the text of the response
    message is the one of [message], not the value of [response]. *)
Lemma empty_response_field_is_passed_over :
  outcome <$> last (sent
     (handleUSSDRequest
        (Scenario.answering (Scenario.answers (Some "") (Some "Balance: 5") None))
        "*123#"
        (Scenario.opened
           (Scenario.answering (Scenario.answers (Some "") (Some "Balance: 5") None)))).2)
  = Some (FetchResponds
            (mkResponse 200 (BodyJson (JsonObject (Some "") (Some "Balance: 5") None))))
  /\ (map msg_text ∘ messages) <$> currentSession
       (handleUSSDRequest
          (Scenario.answering (Scenario.answers (Some "") (Some "Balance: 5") None))
          "*123#"
          (Scenario.opened
             (Scenario.answering (Scenario.answers (Some "") (Some "Balance: 5") None)))).2
     = Some ["*123#"; "Balance: 5"]
  /\ "Balance: 5" <> "".
Proof. vm_compute. repeat split; congruence. Qed.

(** C6. A call made with an endpoint configured, whose write of the
    request is accepted, sends one payload, and that payload carries
    [newSession: true] exactly when the session had no message before the
    call, which includes the case where there was no session and the call
    created one.  (Without an endpoint, or when that write is rejected, the
    call sends no payload: [exchange_took_place].) *)
Theorem newSession_iff_no_prior_message
  (env : Env) (input : string) (s : State) :
  truthy (cfg_endpoint (config s)) = true ->
  storeFault env (Dexie.requests (db s)) = None ->
  exists x,
    sent (handleUSSDRequest env input s).2 = sent s ++ [x]
    /\ userData (payload x) = input
    /\ (newSession (payload x) = true <-> priorMessages s = []).
Proof.
  intros Hep Hput.
  destruct (submit_exchange env input s Hep Hput)
    as (base & req & rsp & x & final & _ & _ & Hms & Hlog & _ & Hpayload & _).
  exists x. split; [assumption|]. rewrite Hpayload, <- Hms. simpl.
  split; [reflexivity|].
  rewrite bool_decide_eq_true. apply length_zero_iff_nil.
Qed.

(** A dial into the session of [Scenario.ended], which has two messages:
    the payload does not announce a new session.  And the first dial of a
    page that has no session. *)
Lemma newSession_witness :
  (exists x,
     sent (handleUSSDRequest Scenario.reliable "1" Scenario.ended).2
     = sent Scenario.ended ++ [x]
     /\ userData (payload x) = "1"
     /\ (newSession (payload x) = true <-> priorMessages Scenario.ended = []))
  /\ priorMessages Scenario.ended <> []
  /\ (exists x,
        sent (handleUSSDRequest Scenario.reliable "*123#" (Scenario.opened Scenario.reliable)).2
        = sent (Scenario.opened Scenario.reliable) ++ [x]
        /\ userData (payload x) = "*123#"
        /\ (newSession (payload x) = true
            <-> priorMessages (Scenario.opened Scenario.reliable) = [])).
Proof.
  split; [|split].
  - apply (newSession_iff_no_prior_message Scenario.reliable "1" Scenario.ended).
    + vm_compute. reflexivity.
    + reflexivity.
  - vm_compute. discriminate.
  - apply (newSession_iff_no_prior_message Scenario.reliable "*123#"
             (Scenario.opened Scenario.reliable)).
    + vm_compute. reflexivity.
    + reflexivity.
Defined.

(** Once an endpoint is configured and the write of the request is
    accepted, the call sends exactly one payload. *)
Lemma submit_sends_one_payload (env : Env) (input : string) (s : State) :
  truthy (cfg_endpoint (config s)) = true ->
  storeFault env (Dexie.requests (db s)) = None ->
  exists x, sent (handleUSSDRequest env input s).2 = sent s ++ [x]
            /\ userData (payload x) = input.
Proof.
  intros Hep Hput.
  destruct (submit_exchange env input s Hep Hput)
    as (base & req & rsp & x & final & _ & _ & _ & Hlog & _ & Hpayload & _).
  exists x. split; [assumption|]. now rewrite Hpayload.
Qed.

(** ** The active flag *)






(** ** Blank input *)

(** C2. The test for a blank input is made by the dial pad, through which
    every call of [handleUSSDRequest] is made:
    when the input is empty after trimming, [handleSubmit] and
    [handleCall] return without calling [onDial], that is without calling
    [handleUSSDRequest]; the state of the simulator, its database and the
    log of the gateway are as they were. *)
Theorem dialer_drops_blank_input (env : Env) (d : PhoneDialer.State State) :
  truthy (trim (PhoneDialer.input d)) = false ->
  PhoneDialer.handleSubmit (handleUSSDRequest env) d = (Returns tt, d)
  /\ PhoneDialer.handleCall (handleUSSDRequest env) d = (Returns tt, d).
Proof.
  intros Hblank.
  unfold PhoneDialer.handleSubmit, PhoneDialer.handleCall, bind, gets, ret. simpl.
  now rewrite Hblank.
Qed.

(** Three spaces typed into the dial pad. *)
Lemma dialer_blank_witness :
  PhoneDialer.handleSubmit (handleUSSDRequest Scenario.reliable)
    (PhoneDialer.mkState "   " false (Scenario.opened Scenario.reliable))
  = (Returns tt, PhoneDialer.mkState "   " false (Scenario.opened Scenario.reliable))
  /\ PhoneDialer.handleCall (handleUSSDRequest Scenario.reliable)
       (PhoneDialer.mkState "   " false (Scenario.opened Scenario.reliable))
     = (Returns tt, PhoneDialer.mkState "   " false (Scenario.opened Scenario.reliable)).
Proof.
  apply (dialer_drops_blank_input Scenario.reliable
           (PhoneDialer.mkState "   " false (Scenario.opened Scenario.reliable))).
  vm_compute. reflexivity.
Defined.

(** A non-blank input is handed to [onDial] as typed, and the pad is
    cleared when the call returns. *)
Lemma dialer_passes_input (env : Env) (d : PhoneDialer.State State) :
  truthy (trim (PhoneDialer.input d)) = true ->
  PhoneDialer.parent (PhoneDialer.handleCall (handleUSSDRequest env) d).2
  = (handleUSSDRequest env (PhoneDialer.input d) (PhoneDialer.parent d)).2.
Proof.
  intros Hinput.
  unfold PhoneDialer.handleCall, PhoneDialer.inParent, PhoneDialer.setIsLoading,
    PhoneDialer.setInput, bind, gets, ret, modify, tryFinally, zoom. simpl.
  rewrite Hinput. simpl.
  destruct (handleUSSDRequest env (PhoneDialer.input d) (PhoneDialer.parent d))
    as [[[]|e] p]; reflexivity.
Qed.

(** ** A database that rejects a request *)

(** C1 fails when the write that follows the request is rejected: the
    page is mounted with a working database, the first dial creates the
    session and appends the request, the database rejects the write, and
    the call ends there: the session has one message, no response or error
    message follows the request, and the gateway was not called. *)
Theorem rejected_write_leaves_request_unanswered :
  (handleUSSDRequest (Scenario.rejectingWrite 1) "*123#"
     (Scenario.opened (Scenario.rejectingWrite 1))).1
  = Throws (ErrorObject "QuotaExceededError")
  /\ (map msg_type ∘ messages) <$> currentSession
       (handleUSSDRequest (Scenario.rejectingWrite 1) "*123#"
          (Scenario.opened (Scenario.rejectingWrite 1))).2
     = Some [request]
  /\ sent (handleUSSDRequest (Scenario.rejectingWrite 1) "*123#"
             (Scenario.opened (Scenario.rejectingWrite 1))).2 = [].
Proof. vm_compute. repeat split; reflexivity. Qed.

(** C7 fails: with IndexedDB unavailable the page is mounted, with the
    warning of [loadSessions]; the first dial is then aborted by the
    rejected write: the gateway is not called, the session in memory holds
    the request alone, [isLoading] stays true, so that the dial pad offers
    no further dial, and ending or clearing the session or opening the
    history does not bring it back. *)
Theorem store_failure_aborts_exchange :
  dbError (Scenario.opened Scenario.noStore)
  = Some "Failed to load session history. Please refresh the page to try again."
  /\ offered (Submit "*123#") (Scenario.opened Scenario.noStore) = true
  /\ (handleUSSDRequest Scenario.noStore "*123#" (Scenario.opened Scenario.noStore)).1
     = Throws (ErrorObject "IndexedDB API missing")
  /\ sent (performAll Scenario.noStore [Submit "*123#"] (Scenario.opened Scenario.noStore))
     = []
  /\ (map msg_type ∘ messages) <$> currentSession
       (performAll Scenario.noStore [Submit "*123#"] (Scenario.opened Scenario.noStore))
     = Some [request]
  /\ isLoading
       (performAll Scenario.noStore [Submit "*123#"] (Scenario.opened Scenario.noStore))
     = true
  /\ offered (Submit "1")
       (performAll Scenario.noStore
          [Submit "*123#"; EndSession; ToggleHistory; ToggleHistory; ClearSession]
          (Scenario.opened Scenario.noStore))
     = false.
Proof. vm_compute. repeat split; reflexivity. Qed.

(** C10, as stated, fails: [handleUSSDRequest] writes the session with the
    request appended before it calls the gateway, and a record left that
    way gets a second request in a row.  Here the first dial gets no answer
    from the gateway and the write of the session with the error message
    is rejected, so the database keeps the session with the request alone;
    the user opens the history, selects that session and dials again.
    Every step is offered by the page, and the transcript then has two
    requests in a row. *)
Theorem reloaded_session_has_two_requests_in_a_row :
  allOffered (Scenario.rejectingWrite 2)
    [Submit "*123#"; ToggleHistory; LoadSession 0; Submit "1"]
    (Scenario.opened (Scenario.rejectingWrite 2)) = true
  /\ (map msg_type ∘ messages) <$> currentSession
       (performAll (Scenario.rejectingWrite 2)
          [Submit "*123#"; ToggleHistory; LoadSession 0; Submit "1"]
          (Scenario.opened (Scenario.rejectingWrite 2)))
     = Some [request; request; response]
  /\ (exists c,
       currentSession
         (performAll (Scenario.rejectingWrite 2)
            [Submit "*123#"; ToggleHistory; LoadSession 0; Submit "1"]
            (Scenario.opened (Scenario.rejectingWrite 2))) = Some c
       /\ ~ alternating (messages c)).
Proof.
  split; [vm_compute; reflexivity|]. split; [vm_compute; reflexivity|].
  destruct (currentSession _) as [c|] eqn:Hc; vm_compute in Hc; [|discriminate].
  exists c. split; [reflexivity|]. injection Hc as <-.
  intros H. specialize (H 1%nat _ eq_refl). discriminate.
Qed.

(** ** The store *)

(** C8. On a database that carries out the requests: a session saved
    with [saveSession] is what [getSession] then returns for its
    identifier; after [deleteSession] of an identifier [getSession]
    returns nothing for it; and [deleteSession] of an identifier that has
    no record returns normally and leaves the records as they are. *)
Theorem store_put_get_delete
  (fault : nat -> option Thrown) (st st' : Dexie.State Db.USSDSession)
  (session : Db.USSDSession) (i j : string) :
  fault (Dexie.requests st) = None ->
  fault (S (Dexie.requests st)) = None ->
  fault (Dexie.requests st') = None ->
  Dexie.records st' !! j = None ->
  ((Db.saveSession fault session ;; Db.getSession fault (Db.id session)) st).1
  = Returns (Some session)
  /\ ((Db.deleteSession fault i ;; Db.getSession fault i) st).1 = Returns None
  /\ Db.deleteSession fault j st'
     = (Returns tt, Dexie.mkState (S (Dexie.requests st')) (Dexie.records st')).
Proof.
  intros H0 H1 H0' Habsent.
  unfold Db.saveSession, Db.getSession, Db.deleteSession, Dexie.put, Dexie.get,
    Dexie.delete, Dexie.request, bind, ret.
  simpl. rewrite H0. simpl. rewrite H1, H0'. simpl.
  rewrite lookup_insert_eq, lookup_delete_eq.
  repeat split. f_equal. f_equal. now apply delete_id.
Qed.

(** A store holding one session, which is saved again with a later
    [updatedAt], and an identifier that has no record. *)
Lemma store_witness :
  ((Db.saveSession (fun _ => None) Scenario.saved ;;
    Db.getSession (fun _ => None) (Db.id Scenario.saved)) Scenario.store).1
  = Returns (Some Scenario.saved)
  /\ ((Db.deleteSession (fun _ => None) "17" ;; Db.getSession (fun _ => None) "17")
        Scenario.store).1
     = Returns None
  /\ Db.deleteSession (fun _ => None) "18" Scenario.store
     = (Returns tt,
        Dexie.mkState (S (Dexie.requests Scenario.store)) (Dexie.records Scenario.store)).
Proof.
  apply (store_put_get_delete (fun _ => None) Scenario.store Scenario.store
           Scenario.saved "17" "18").
  - reflexivity.
  - reflexivity.
  - reflexivity.
  - vm_compute. reflexivity.
Defined.

(** When the database rejects the request, so does the helper. *)
Lemma store_unavailable (fault : nat -> option Thrown) (st : Dexie.State Db.USSDSession)
  (session : Db.USSDSession) (i : string) (e : Thrown) :
  fault (Dexie.requests st) = Some e ->
  (Db.saveSession fault session st).1 = Throws e
  /\ (Db.getSession fault i st).1 = Throws e
  /\ (Db.deleteSession fault i st).1 = Throws e
  /\ (Db.getAllSessions fault st).1 = Throws e.
Proof.
  intros H.
  unfold Db.saveSession, Db.getSession, Db.deleteSession, Db.getAllSessions, Dexie.put,
    Dexie.get, Dexie.delete, Dexie.toArray, Dexie.request, bind, ret.
  simpl. rewrite H. auto.
Qed.

(** ** The order of the history *)

Section SortFacts.
Context {A : Type} (key : A -> Z).

(** A comparator that puts the larger key first. *)
Let largestFirst (a b : A) : Z := key b - key a.

Lemma insertSorted_Permutation (cmp : A -> A -> Z) (x : A) (l : list A) :
  insertSorted cmp x l ≡ₚ x :: l.
Proof.
  induction l as [|y l IH]; simpl; [reflexivity|].
  destruct (cmp x y <=? 0); [reflexivity|].
  rewrite IH. apply Permutation_swap.
Qed.

Lemma sort_Permutation (cmp : A -> A -> Z) (l : list A) : sort cmp l ≡ₚ l.
Proof.
  induction l as [|x l IH]; simpl; [reflexivity|].
  unfold sort in *. simpl. rewrite insertSorted_Permutation. now rewrite IH.
Qed.

Lemma insertSorted_descending (x : A) (l : list A) :
  StronglySorted (fun a b => key b <= key a) l ->
  StronglySorted (fun a b => key b <= key a) (insertSorted largestFirst x l).
Proof.
  induction 1 as [|y l Hl IH Hy]; simpl.
  - repeat constructor.
  - subst largestFirst. simpl. destruct (Z.leb_spec (key y - key x) 0) as [Hle|Hgt].
    + constructor; [now constructor|].
      constructor; [lia|].
      eapply Forall_impl; [exact Hy|]. simpl. intros; lia.
    + constructor; [exact IH|].
      rewrite insertSorted_Permutation. constructor; [lia|exact Hy].
Qed.

Lemma sort_descending (l : list A) :
  StronglySorted (fun a b => key b <= key a) (sort largestFirst l).
Proof.
  induction l as [|x l IH]; [constructor|].
  unfold sort in *. simpl. now apply insertSorted_descending.
Qed.
End SortFacts.

Lemma StronglySorted_lookup_lt {A} (R : A -> A -> Prop) (l : list A) (i j : nat) (a b : A) :
  StronglySorted R l -> l !! i = Some a -> l !! j = Some b -> (i < j)%nat -> R a b.
Proof.
  intros Hl. revert i j. induction Hl as [|x l Hl IH Hx]; intros i j Hi Hj Hlt.
  - discriminate.
  - destruct j as [|j]; [lia|]. destruct i as [|i]; simpl in *.
    + injection Hi as <-. rewrite Forall_forall in Hx. apply Hx.
      eapply list_elem_of_lookup_2. exact Hj.
    + apply (IH i j); [assumption..|lia].
Qed.

(** The history panel shows the sessions held in [sessions], each once. *)
Lemma history_shows_sessions (s : State) : historyEntries s ≡ₚ sessions s.
Proof. apply sort_Permutation. Qed.

(** In every state the panel lists the sessions of [sessions] newest
    first by [updatedAt], taking [startTime] for a session that has no
    [updatedAt]: of two entries, the one with the later of these times
    comes first. *)
Lemma historyEntries_descending (s : State) (i j : nat) (a b : USSDSession) :
  historyEntries s !! i = Some a ->
  historyEntries s !! j = Some b ->
  lastActivity b < lastActivity a ->
  (i < j)%nat.
Proof.
  intros Hi Hj Hlt.
  pose proof (sort_descending lastActivity (sessions s)) as Hsorted.
  change (sort _ (sessions s)) with (historyEntries s) in Hsorted.
  destruct (Nat.lt_trichotomy i j) as [Hij|[Hij|Hij]]; [assumption|exfalso..].
  - subst j. rewrite Hi in Hj. injection Hj as ->. lia.
  - pose proof (StronglySorted_lookup_lt _ _ _ _ _ _ Hsorted Hj Hi Hij) as H.
    simpl in H. lia.
Qed.

(** The session without [updatedAt] is listed by its [startTime], between
    the two others. *)
Example history_order_example :
  historyEntries Scenario.withHistory = [Scenario.newest; Scenario.older; Scenario.oldest].
Proof. reflexivity. Qed.

(** The comparator of [loadSessions] counts a session without
    [updatedAt] as the oldest; the order it leaves in [sessions] is not the
    one shown, since the panel sorts again. *)
Lemma loadSessions_order_example :
  sort byUpdatedAt [Scenario.older; Scenario.oldest; Scenario.newest]
  = [Scenario.newest; Scenario.oldest; Scenario.older].
Proof. reflexivity. Qed.

(** ** Transcripts under a database that carries out every request *)

Lemma alternating_nil : alternating [].
Proof. intros i m H. destruct i; discriminate. Qed.

Lemma alternating_app_pair (ms : list USSDMessage) (req rsp : USSDMessage) :
  alternating ms -> Nat.Even (length ms) ->
  msg_type req = request -> msg_type rsp = response ->
  alternating (ms ++ [req; rsp]) /\ Nat.Even (length (ms ++ [req; rsp])).
Proof.
  intros Halt Heven Hreq Hrsp. split.
  - intros i m Hi.
    destruct (decide (i < length ms)%nat) as [Hlt|Hge].
    + rewrite lookup_app_l in Hi by assumption. now apply Halt.
    + rewrite lookup_app_r in Hi by lia.
      assert (Hev : Nat.even (length ms) = true) by now apply Nat.even_spec.
      destruct (i - length ms)%nat as [|[|k]] eqn:Hk; simpl in Hi; simplify_eq.
      * replace i with (length ms) by lia. now rewrite Hev.
      * replace i with (S (length ms)) by lia. rewrite Nat.even_succ, <- Nat.negb_even, Hev.
        assumption.
  - rewrite length_app. simpl. destruct Heven as [k Hk]. exists (S k). lia.
Qed.

Lemma settled_of_messages (fin : USSDSession) (i : string) (ms : list USSDMessage)
  (req rsp : USSDMessage) :
  id fin = i -> messages fin = ms ++ [req; rsp] ->
  alternating ms -> Nat.Even (length ms) ->
  (forall m, m ∈ ms -> msg_sessionId m = i) ->
  msg_type req = request -> msg_sessionId req = i ->
  msg_type rsp = response -> msg_sessionId rsp = i ->
  settled fin.
Proof.
  intros Hid Hms Halt Heven Hown Hreq Hreqs Hrsp Hrsps.
  unfold settled, owned. rewrite Hms, Hid.
  destruct (alternating_app_pair _ req rsp Halt Heven Hreq Hrsp) as [H1 H2].
  repeat split; try assumption.
  intros m Hm. rewrite elem_of_app in Hm. destruct Hm as [Hm|Hm]; [now apply Hown|].
  rewrite !elem_of_cons in Hm. destruct Hm as [->|[->|Hm]]; try assumption.
  now apply elem_of_nil in Hm.
Qed.

Lemma inKeyOrder_elem_of {V} (t : gmap string V) (v : V) :
  v ∈ Dexie.inKeyOrder t -> exists k, t !! k = Some v.
Proof.
  unfold Dexie.inKeyOrder. rewrite list_elem_of_fmap. intros ([k v'] & -> & Hin).
  rewrite merge_sort_Permutation in Hin. apply elem_of_map_to_list in Hin. eauto.
Qed.

Lemma settled_loaded (t : gmap string USSDSession) :
  map_Forall (fun _ c => settled c) t ->
  Forall settled (sort byUpdatedAt (Dexie.inKeyOrder t)).
Proof.
  intros Ht. rewrite Forall_forall. intros c Hc.
  rewrite sort_Permutation in Hc.
  destruct (inKeyOrder_elem_of t c Hc) as [k Hk]. exact (Ht k c Hk).
Qed.

Section Reliable.
Variable env : Env.
Hypothesis reliable : forall k, storeFault env k = None.

Ltac run :=
  unfold_handlers; simpl;
  repeat (first [rewrite reliable | case_match]; simpl in *; simplify_eq);
  try match goal with
    | F : storeFault env _ = Some _ |- _ => rewrite reliable in F; discriminate
    end.

Lemma loadSessions_settled (r s : State) :
  allSettled s -> allSettled (loadSessions env r s).2.
Proof.
  intros H. pose proof H as (Hc & Hs & Ht). run; [exact H|].
  split; [exact Hc|]. split; [|exact Ht]. simpl. now apply settled_loaded.
Qed.

Ltac settle_current :=
  lazymatch goal with
  | Hu : settled ?u |- settled _ =>
      first
        [ exact Hu
        | destruct Hu as (? & ? & ?);
          eapply (settled_of_messages _ (id u) (messages u));
          simpl; rewrite <- ?app_assoc; try reflexivity; assumption ]
  | |- settled _ =>
      eapply (settled_of_messages _ _ []);
      simpl; try reflexivity;
      [ apply alternating_nil | exists 0%nat; reflexivity
      | intros ? Hin; now apply elem_of_nil in Hin ]
  end.

Ltac settle :=
  lazymatch goal with
  | H : allSettled ?s |- allSettled ?s => exact H
  | |- allSettled _ =>
      split; [|split]; simpl;
      [ intros ? ?; simplify_eq; first [ solve [eauto] | settle_current | idtac ]
      | first [ assumption | constructor | apply settled_loaded; simpl ]
      | ];
      rewrite ?insert_insert_eq;
      repeat first
        [ assumption
        | apply map_Forall_insert_2
        | apply map_Forall_delete
        | settle_current ]
  end.

Lemma handleUSSDRequest_settled (input : string) (s : State) :
  allSettled s -> allSettled (handleUSSDRequest env input s).2.
Proof.
  intros H. pose proof H as (Hc & Hs & Ht).
  destruct (currentSession s) as [u|] eqn:Hu.
  - pose proof (Hc u eq_refl) as Hset. run; settle.
  - run; settle.
Qed.

Lemma handleEndSession_settled (s : State) :
  allSettled s -> allSettled (handleEndSession env s).2.
Proof.
  intros H. pose proof H as (Hc & Hs & Ht).
  destruct (currentSession s) as [u|] eqn:Hu.
  - pose proof (Hc u eq_refl) as Hset. run; settle.
  - run; settle.
Qed.

Lemma perform_settled (op : Operation) (s : State) :
  allSettled s -> allSettled (perform env op s).2.
Proof.
  intros H. pose proof H as (Hc & Hs & Ht).
  destruct op as [input| | | |n|n| |c].
  - now apply handleUSSDRequest_settled.
  - now apply handleEndSession_settled.
  - run; settle.
  - run; settle.
  - unfold perform, bind, gets. simpl.
    destruct (historyEntries s !! n) as [c|] eqn:Hn; [|exact H].
    assert (settled c).
    { rewrite Forall_forall in Hs. apply Hs.
      rewrite <- (history_shows_sessions s). eapply list_elem_of_lookup_2. exact Hn. }
    run; settle.
  - unfold perform, bind, gets. simpl.
    destruct (historyEntries s !! n) as [c|] eqn:Hn; [|exact H].
    run; settle.
  - run; settle.
  - run; settle.
Qed.

(** X14. A transcript in which every request has its response stays so under
    every sequence of operations, as long as the database carries out the
    requests: the messages of every session in memory, in the history and
    in the database alternate, starting with a request, and name their
    session. *)
Lemma transcripts_stay_settled (ops : list Operation) (s : State) :
  allSettled s -> allSettled (performAll env ops s).
Proof.
  revert s. induction ops as [|op ops IH]; intros s H; [exact H|].
  simpl. apply IH. now apply perform_settled.
Qed.
End Reliable.


(** The page as mounted holds no unsettled transcript. *)
Lemma opened_is_settled (env : Env) : allSettled (Scenario.opened env).
Proof.
  unfold Scenario.opened, performAll. simpl. unfold_handlers. simpl.
  split_cases; (split; [intros ? ?; discriminate|]); split; simpl;
    first [ apply map_Forall_empty | constructor
          | apply settled_loaded; apply map_Forall_empty ].
Qed.

(** ** Transcripts of a page mounted over stored sessions *)

Lemma initializeSessions_settled (env : Env) (d : Dexie.State USSDSession) :
  map_Forall (fun _ c => settled c) (Dexie.records d) ->
  allSettled (initializeSessions env (initialState d)).2.
Proof.
  intros Hd. unfold_handlers. simpl.
  split_cases; (split; [intros ? ?; discriminate|]); split; simpl;
    first [ assumption | constructor | now apply settled_loaded ].
Qed.

(** C10 (amended). The page is mounted over a database in which the
    messages of every record alternate, starting with a request and ending
    with a response, and name their session, and the database carries out
    every request.  Then after every sequence of operations the same holds
    of every session the page has on display, has in its history or has
    stored: the message at an even index is a request, the one at an odd
    index a response, the last one a response, and the [sessionId] of every
    message is the [id] of the session. *)
Theorem transcripts_alternate_over_settled_store
  (env : Env) (d : Dexie.State USSDSession) (ops : list Operation) :
  (forall k, storeFault env k = None) ->
  map_Forall (fun _ c => settled c) (Dexie.records d) ->
  forall c,
    currentSession (performAll env ops (initializeSessions env (initialState d)).2) = Some c
    \/ c ∈ sessions (performAll env ops (initializeSessions env (initialState d)).2)
    \/ (exists k,
          Dexie.records (db (performAll env ops (initializeSessions env (initialState d)).2))
            !! k = Some c) ->
    (forall i m, messages c !! i = Some m ->
                 msg_type m = if Nat.even i then request else response)
    /\ Nat.Even (length (messages c))
    /\ (forall m, m ∈ messages c -> msg_sessionId m = id c).
Proof.
  intros Hreliable Hd.
  pose proof (initializeSessions_settled env d Hd) as Hmount.
  revert Hmount. generalize (initializeSessions env (initialState d)).2.
  induction ops as [|op ops IH]; intros s Hs c Hc.
  - destruct Hs as (Hcur & Hlist & Htable). simpl in Hc.
    destruct Hc as [Hc|[Hc|[k Hc]]].
    + exact (Hcur c Hc).
    + rewrite Forall_forall in Hlist. exact (Hlist c Hc).
    + exact (Htable k c Hc).
  - simpl in Hc. exact (IH _ (perform_settled env Hreliable op s Hs) c Hc).
Qed.

(** A session whose request was answered is stored; the page is mounted
    and given the configuration, the session is taken from the history and
    dialled into. *)
Lemma transcripts_alternate_witness :
  (map msg_type ∘ messages) <$> currentSession
    (performAll Scenario.reliable Cases.redial
       (initializeSessions Scenario.reliable (initialState Cases.answered)).2)
  = Some [request; response; request; response]
  /\ forall c,
      currentSession
        (performAll Scenario.reliable Cases.redial
           (initializeSessions Scenario.reliable (initialState Cases.answered)).2) = Some c
      \/ c ∈ sessions
            (performAll Scenario.reliable Cases.redial
               (initializeSessions Scenario.reliable (initialState Cases.answered)).2)
      \/ (exists k,
            Dexie.records
              (db (performAll Scenario.reliable Cases.redial
                     (initializeSessions Scenario.reliable (initialState Cases.answered)).2))
              !! k = Some c) ->
      (forall i m, messages c !! i = Some m ->
                   msg_type m = if Nat.even i then request else response)
      /\ Nat.Even (length (messages c))
      /\ (forall m, m ∈ messages c -> msg_sessionId m = id c).
Proof.
  split; [vm_compute; reflexivity|].
  apply (transcripts_alternate_over_settled_store Scenario.reliable Cases.answered
           Cases.redial).
  - intros k. reflexivity.
  - apply map_Forall_singleton. split; [|split].
    + intros [|[|i]] m Hm; simpl in Hm; simplify_eq; reflexivity.
    + exists 1%nat. reflexivity.
    + intros m Hm. simpl in Hm. rewrite !elem_of_cons in Hm.
      destruct Hm as [->|[->|Hm]]; [reflexivity..|]. now apply elem_of_nil in Hm.
Defined.

(** No rejected write is needed for two requests in a row: the page is
    mounted, on a database that carries out every request, over the record
    that a dial writes before it calls the gateway (what the database holds
    when the page is closed before the answer); the session is taken from
    the history and dialled into. *)
Example unanswered_record_takes_second_request :
  allOffered Scenario.reliable [ToggleHistory; LoadSession 0; Submit "1"]
    (Cases.reopened Scenario.reliable Cases.unanswered) = true
  /\ (map msg_type ∘ messages) <$> currentSession
       (performAll Scenario.reliable [ToggleHistory; LoadSession 0; Submit "1"]
          (Cases.reopened Scenario.reliable Cases.unanswered))
     = Some [request; request; response]
  /\ Dexie.records
       (db (performAll (Scenario.rejectingWrite 2) [Submit "*123#"]
              (Scenario.opened (Scenario.rejectingWrite 2))))
     = {[ "1700000000000" := Cases.unanswered ]}.
Proof. vm_compute. repeat split; reflexivity. Qed.

(** ** What [loadSessions] puts in the history *)

Lemma inKeyOrder_complete {V} (t : gmap string V) (k : string) (v : V) :
  t !! k = Some v -> v ∈ Dexie.inKeyOrder t.
Proof.
  intros H. unfold Dexie.inKeyOrder. rewrite list_elem_of_fmap. exists (k, v).
  split; [reflexivity|]. rewrite merge_sort_Permutation. now apply elem_of_map_to_list.
Qed.

Lemma inKeyOrder_length {V} (t : gmap string V) :
  length (Dexie.inKeyOrder t) = size t.
Proof.
  unfold Dexie.inKeyOrder. rewrite length_fmap, merge_sort_Permutation.
  apply length_map_to_list.
Qed.

(** Called from a render that is not loading, on a database that carries
    out the request, [loadSessions] leaves in [sessions] the records of
    the table, each once; the history panel shows them newest first. *)
Lemma loadSessions_loads_table (env : Env) (r s : State) :
  isLoading r = false ->
  storeFault env (Dexie.requests (db s)) = None ->
  historyEntries (loadSessions env r s).2 ≡ₚ Dexie.inKeyOrder (Dexie.records (db s))
  /\ dbError (loadSessions env r s).2 = dbError s
  /\ currentSession (loadSessions env r s).2 = currentSession s.
Proof.
  intros Hr Hfault. rewrite history_shows_sessions.
  unfold_handlers. simpl. rewrite Hr. simpl. rewrite Hfault. simpl.
  split; [apply sort_Permutation|]. split; reflexivity.
Qed.

(** C9. What [loadSessions] fetches from the table with [toArray] is
    presented in full and newest first.  Called from a render that is not
    loading, on a database that carries out the request, it leaves a
    history whose panel shows every record of the table and nothing else,
    as many entries as the table has records, ordered by [updatedAt] from
    the latest on, with [startTime] taken for a record that has no
    [updatedAt]: of two records of the table, the one with the later of
    these times is shown, and every entry of it comes before every entry
    of the other. *)
Theorem history_is_newest_first (env : Env) (r s : State) (a b : USSDSession) :
  isLoading r = false ->
  storeFault env (Dexie.requests (db s)) = None ->
  (exists k, Dexie.records (db s) !! k = Some a) ->
  (exists k, Dexie.records (db s) !! k = Some b) ->
  match updatedAt b with Some t => t | None => startTime b end
  < match updatedAt a with Some t => t | None => startTime a end ->
  (forall c, c ∈ historyEntries (loadSessions env r s).2
             <-> exists k, Dexie.records (db s) !! k = Some c)
  /\ length (historyEntries (loadSessions env r s).2) = size (Dexie.records (db s))
  /\ (exists i j,
        historyEntries (loadSessions env r s).2 !! i = Some a
        /\ historyEntries (loadSessions env r s).2 !! j = Some b
        /\ (i < j)%nat)
  /\ (forall i j,
        historyEntries (loadSessions env r s).2 !! i = Some a ->
        historyEntries (loadSessions env r s).2 !! j = Some b ->
        (i < j)%nat).
Proof.
  intros Hr Hfault [ka Ha] [kb Hb] Hlt.
  change (lastActivity b < lastActivity a) in Hlt.
  destruct (loadSessions_loads_table env r s Hr Hfault) as [Hperm _].
  assert (Hshown : forall c, c ∈ historyEntries (loadSessions env r s).2
                             <-> exists k, Dexie.records (db s) !! k = Some c).
  { intros c. rewrite Hperm. split.
    - apply inKeyOrder_elem_of.
    - intros [k Hk]. eapply inKeyOrder_complete. exact Hk. }
  assert (Horder : forall i j,
            historyEntries (loadSessions env r s).2 !! i = Some a ->
            historyEntries (loadSessions env r s).2 !! j = Some b -> (i < j)%nat).
  { intros i j Hi Hj. exact (historyEntries_descending _ i j a b Hi Hj Hlt). }
  split; [exact Hshown|]. split; [rewrite Hperm; apply inKeyOrder_length|].
  split; [|exact Horder].
  destruct (list_elem_of_lookup_1 _ a (proj2 (Hshown a) (ex_intro _ ka Ha))) as [i Hi].
  destruct (list_elem_of_lookup_1 _ b (proj2 (Hshown b) (ex_intro _ kb Hb))) as [j Hj].
  exists i, j. split; [exact Hi|]. split; [exact Hj|]. exact (Horder i j Hi Hj).
Qed.

(** The table holds three sessions; the one without [updatedAt] is listed
    by its [startTime], between the two others. *)
Lemma history_witness :
  historyEntries Cases.listed = [Scenario.newest; Scenario.older; Scenario.oldest]
  /\ (forall c, c ∈ historyEntries Cases.listed
                <-> exists k, Dexie.records Cases.archive !! k = Some c)
  /\ length (historyEntries Cases.listed) = size (Dexie.records Cases.archive)
  /\ (exists i j,
        historyEntries Cases.listed !! i = Some Scenario.older
        /\ historyEntries Cases.listed !! j = Some Scenario.oldest
        /\ (i < j)%nat)
  /\ (forall i j,
        historyEntries Cases.listed !! i = Some Scenario.older ->
        historyEntries Cases.listed !! j = Some Scenario.oldest ->
        (i < j)%nat).
Proof.
  split; [vm_compute; reflexivity|].
  apply (history_is_newest_first Scenario.reliable (initialState Cases.archive)
           (initialState Cases.archive) Scenario.older Scenario.oldest).
  - reflexivity.
  - reflexivity.
  - exists "50". vm_compute. reflexivity.
  - exists "10". vm_compute. reflexivity.
  - reflexivity.
Defined.

(** X12. When the database rejects the request of [loadSessions], called
    from a render that is not loading, the call returns the empty list:
    the history keeps what it had, the warning is set, [isLoading] ends
    false, and the session on display and the records are untouched. *)
Lemma loadSessions_rejected (env : Env) (r s : State) (e : Thrown) :
  isLoading r = false ->
  storeFault env (Dexie.requests (db s)) = Some e ->
  loadSessions env r s
  = (Returns [],
     mkState (config s) false (currentSession s) (sessions s) (showHistory s)
       (Some "Failed to load session history. Please refresh the page to try again.")
       (ticks s) (sent s) (Dexie.mkState (S (Dexie.requests (db s))) (Dexie.records (db s)))).
Proof.
  intros Hr Hfault. unfold_handlers. simpl. rewrite Hr. simpl. rewrite Hfault. reflexivity.
Qed.

(** Mounting the page never throws: a database that rejects the request
    leaves a warning and an empty history. *)
Lemma initializeSessions_returns (env : Env) (d : Dexie.State USSDSession) :
  (initializeSessions env (initialState d)).1 = Returns tt
  /\ currentSession (initializeSessions env (initialState d)).2 = None
  /\ isLoading (initializeSessions env (initialState d)).2 = false.
Proof. unfold_handlers. simpl. split_cases; repeat split; reflexivity. Qed.

(** ** The hook [useIndexedDB] *)

(** X25. With the database opened and its requests carried out, the
    callbacks of the hook obey the laws of a store: a session saved is what
    [getSession] then returns for its identifier, and after
    [deleteSession] of an identifier [getSession] returns nothing for
    it. *)
Lemma hook_put_get_delete
  (fault : nat -> option Thrown) (h : UseIndexedDB.Render)
  (st : Dexie.State USSDSession) (session : USSDSession) (i : string) :
  UseIndexedDB.db h = Some UseIndexedDB.Handle ->
  fault (Dexie.requests st) = None ->
  fault (S (Dexie.requests st)) = None ->
  (exists st',
     UseIndexedDB.saveSession fault h session st = UseIndexedDB.Settled (Returns tt, st')
     /\ exists st'',
         UseIndexedDB.getSession fault h (id session) st'
         = UseIndexedDB.Settled (Returns (Some session), st''))
  /\ (exists st',
       UseIndexedDB.deleteSession fault h i st = UseIndexedDB.Settled (Returns tt, st')
       /\ Dexie.records st' = base.delete i (Dexie.records st)
       /\ exists st'',
           UseIndexedDB.getSession fault h i st' = UseIndexedDB.Settled (Returns None, st'')).
Proof.
  intros Hdb H0 H1.
  unfold UseIndexedDB.saveSession, UseIndexedDB.getSession, UseIndexedDB.deleteSession,
    UseIndexedDB.withDB, UseIndexedDB.waitForDB, Dexie.put, Dexie.get, Dexie.delete,
    Dexie.request, bind, ret.
  rewrite Hdb. simpl. rewrite H0. simpl.
  split.
  - eexists. split; [reflexivity|]. simpl. rewrite H1, lookup_insert_eq. eauto.
  - eexists. split; [reflexivity|]. split; [reflexivity|]. simpl.
    rewrite H1, lookup_delete_eq. eauto.
Qed.

(** Called from a render that has no handle yet, the callbacks never
    settle while that render was loading, and reject otherwise. *)
Lemma hook_without_handle
  (fault : nat -> option Thrown) (h : UseIndexedDB.Render)
  (st : Dexie.State USSDSession) (session : USSDSession) :
  UseIndexedDB.db h = None ->
  UseIndexedDB.saveSession fault h session st
  = if UseIndexedDB.isLoading h then UseIndexedDB.Pending
    else UseIndexedDB.Settled (Throws (ErrorObject "Database not initialized"), st).
Proof.
  intros Hdb. unfold UseIndexedDB.saveSession, UseIndexedDB.withDB, UseIndexedDB.waitForDB.
  rewrite Hdb. now destruct (UseIndexedDB.isLoading h).
Qed.

(** ** Once [isLoading] is left set *)

Section Stuck.
Variable env : Env.

(** While [isLoading] is true no operation that the page offers clears
    it: [loadSessions] returns at its first test, and the dial pad, whose
    call alone ends with [setIsLoading(false)], is disabled. *)
Lemma offered_keeps_loading (op : Operation) (s : State) :
  isLoading s = true -> offered op s = true ->
  isLoading (perform env op s).2 = true.
Proof.
  intros Hl Hoff. destruct op as [input| | | |n|n| |c]; simpl in Hoff.
  - rewrite Hl in Hoff. simpl in Hoff. rewrite andb_false_r in Hoff. discriminate.
  - unfold_handlers. simpl. split_cases; simpl; congruence.
  - discriminate.
  - unfold_handlers. simpl. split_cases; simpl; congruence.
  - unfold_handlers. simpl. split_cases; simpl; congruence.
  - unfold_handlers. simpl. split_cases; simpl; congruence.
  - unfold_handlers. simpl. split_cases; simpl; congruence.
  - exact Hl.
Qed.

Lemma loading_stays_set (ops : list Operation) (s : State) :
  isLoading s = true -> allOffered env ops s = true ->
  isLoading (performAll env ops s) = true.
Proof.
  revert s. induction ops as [|op ops IH]; intros s Hl Hoff; [exact Hl|].
  simpl in *. apply andb_prop in Hoff. destruct Hoff as [Hop Hops].
  apply IH; [|exact Hops]. now apply offered_keeps_loading.
Qed.

(** X15. After a rejected write of the request the dial pad is disabled,
    and stays so whatever the user does next among the operations the page
    offers. *)
Lemma rejected_write_disables_dialing
  (input next : string) (s : State) (e : Thrown) (ops : list Operation) :
  truthy (cfg_endpoint (config s)) = true ->
  storeFault env (Dexie.requests (db s)) = Some e ->
  allOffered env ops (handleUSSDRequest env input s).2 = true ->
  offered (Submit next) (performAll env ops (handleUSSDRequest env input s).2) = false.
Proof.
  intros Hep Hput Hoff.
  destruct (submit_rejected_write env input s e Hep Hput)
    as (cur & req & _ & _ & _ & _ & _ & Hl & _).
  simpl. rewrite (loading_stays_set ops _ Hl Hoff). simpl.
  now rewrite andb_false_r.
Qed.
End Stuck.

(** ** Blank strings *)

Lemma trimEnd_blank (s : string) : blank s = true -> trimEnd s = "".
Proof.
  induction s as [|c s IH]; simpl; [reflexivity|].
  intros H. apply andb_prop in H. destruct H as [Hc Hs].
  now rewrite (IH Hs), Hc.
Qed.

Lemma trimEnd_not_blank (s : string) : blank s = false -> truthy (trimEnd s) = true.
Proof.
  induction s as [|c s IH]; simpl; [discriminate|].
  intros H. destruct (trimEnd s) eqn:Ht; [|reflexivity].
  destruct (isWhiteSpace c); [|reflexivity].
  simpl in H. specialize (IH H). discriminate.
Qed.

Lemma trimStart_blank (s : string) : blank (trimStart s) = blank s.
Proof.
  induction s as [|c s IH]; simpl; [reflexivity|].
  destruct (isWhiteSpace c) eqn:Hc; simpl; [exact IH|]. now rewrite Hc.
Qed.

(** [input.trim()] is falsy exactly when the input is empty or made of
    white space only. *)
Lemma trim_falsy_iff_blank (s : string) : truthy (trim s) = negb (blank s).
Proof.
  unfold trim. destruct (blank s) eqn:Hb.
  - rewrite trimEnd_blank; [reflexivity|]. now rewrite trimStart_blank.
  - apply trimEnd_not_blank. now rewrite trimStart_blank.
Qed.

Example trim_example : trim "  *123# 1  " = "*123# 1" /\ trim "   " = "" /\ trim "" = "".
Proof. repeat split; reflexivity. Qed.

(** ** The exchange when the write of the request is accepted *)

(** X5. With an endpoint configured and the write of the request accepted, a
    call appends the request and then one response message, which holds
    the answer or the error, and the session so extended is the current
    one when the call ends, however it ends. *)
Lemma accepted_write_appends_request_then_response
  (env : Env) (input : string) (s : State) :
  truthy (cfg_endpoint (config s)) = true ->
  storeFault env (Dexie.requests (db s)) = None ->
  exists cur req rsp,
    currentSession (handleUSSDRequest env input s).2 = Some cur
    /\ messages cur = priorMessages s ++ [req; rsp]
    /\ msg_type req = request /\ msg_text req = input
    /\ msg_type rsp = response
    /\ msg_sessionId req = id cur /\ msg_sessionId rsp = id cur.
Proof.
  intros Hep Hput.
  destruct (submit_exchange env input s Hep Hput)
    as (base & req & rsp & x & final & _ & _ & Hms & _ & _ & _ & _ & Hcur & Hid
        & Hfinal & Hreq & Htext & Hreqs & Hrsp & Hrsps & _).
  exists final, req, rsp. rewrite <- Hms, Hid. auto 10.
Qed.

(** ** Three runs end to end *)

(** The first dial is answered with a menu: two messages, session active,
    one record in the database, dial pad enabled again. *)
Example dial_answered :
  (map (fun m => (msg_type m, msg_text m)) ∘ messages) <$> currentSession
    (performAll Scenario.reliable [Submit "*123#"] (Scenario.opened Scenario.reliable))
  = Some [(request, "*123#"); (response, "Menu")]
  /\ isActive <$> currentSession
       (performAll Scenario.reliable [Submit "*123#"] (Scenario.opened Scenario.reliable))
     = Some true
  /\ isLoading
       (performAll Scenario.reliable [Submit "*123#"] (Scenario.opened Scenario.reliable))
     = false
  /\ size (Dexie.records (db
       (performAll Scenario.reliable [Submit "*123#"] (Scenario.opened Scenario.reliable))))
     = 1%nat.
Proof. vm_compute. repeat split; reflexivity. Qed.

(** The gateway answers HTTP 500: the transcript ends with the error and
    the session is ended. *)
Example dial_refused :
  (map msg_text ∘ messages) <$> currentSession
    (performAll
       (Scenario.answering (FetchResponds (mkResponse 500 (BodyInvalid OtherValue))))
       [Submit "*123#"]
       (Scenario.opened
          (Scenario.answering (FetchResponds (mkResponse 500 (BodyInvalid OtherValue))))))
  = Some ["*123#"; "Error: HTTP error! status: 500"]
  /\ isActive <$> currentSession
       (performAll
          (Scenario.answering (FetchResponds (mkResponse 500 (BodyInvalid OtherValue))))
          [Submit "*123#"]
          (Scenario.opened
             (Scenario.answering (FetchResponds (mkResponse 500 (BodyInvalid OtherValue))))))
     = Some false.
Proof. vm_compute. repeat split; reflexivity. Qed.

(** Deleting the session on display from the history clears the current
    session and empties the table and the history. *)
Example delete_current :
  currentSession
    (performAll Scenario.reliable [Submit "*123#"; ToggleHistory; DeleteSession 0]
       (Scenario.opened Scenario.reliable)) = None
  /\ sessions
       (performAll Scenario.reliable [Submit "*123#"; ToggleHistory; DeleteSession 0]
          (Scenario.opened Scenario.reliable)) = []
  /\ size (Dexie.records (db
       (performAll Scenario.reliable [Submit "*123#"; ToggleHistory; DeleteSession 0]
          (Scenario.opened Scenario.reliable)))) = 0%nat.
Proof. vm_compute. repeat split; reflexivity. Qed.

(** * Further properties of the handlers *)

(** One step of a run: a case analysis on the next thing the environment
    decides. *)
Ltac step_goal :=
  match goal with
  | |- context [match ?x with _ => _ end] =>
      lazymatch x with
      | context [match _ with _ => _ end] => fail
      | _ => destruct x
      end
  end; simpl.

(** ** The call without an endpoint *)

(** X1. While no endpoint is configured, no number of dials changes
    anything: each call of [handleUSSDRequest] returns at once and leaves
    the state, the database and the log of the gateway as they were. *)
Theorem submits_without_endpoint_change_nothing
  (env : Env) (inputs : list string) (s : State) :
  truthy (cfg_endpoint (config s)) = false ->
  performAll env (Submit <$> inputs) s = s
  /\ Forall (fun input => handleUSSDRequest env input s = (Returns tt, s)) inputs.
Proof.
  intros Hep. split.
  - induction inputs as [|input inputs IH]; [reflexivity|].
    simpl. unfold performAll in *. simpl.
    rewrite (submit_without_endpoint env input s Hep). exact IH.
  - apply Forall_forall. intros input _. now apply submit_without_endpoint.
Qed.

(** Two dials on the page as mounted, which has the default configuration. *)
Lemma submits_without_endpoint_witness :
  performAll Scenario.reliable (Submit <$> ["*123#"; "1"]) (initialState (Dexie.mkState 0 ∅))
  = initialState (Dexie.mkState 0 ∅)
  /\ Forall
       (fun input =>
          handleUSSDRequest Scenario.reliable input (initialState (Dexie.mkState 0 ∅))
          = (Returns tt, initialState (Dexie.mkState 0 ∅)))
       ["*123#"; "1"].
Proof.
  apply (submits_without_endpoint_change_nothing Scenario.reliable ["*123#"; "1"]
           (initialState (Dexie.mkState 0 ∅))).
  reflexivity.
Defined.

(** ** The session on display *)

(** One operation that works on the session on display keeps what
    identifies it, and only appends to its messages. *)
Lemma perform_keeps_session (env : Env) (op : Operation) (s : State) (c : USSDSession) :
  currentSession s = Some c ->
  keepsSession op = true ->
  exists c',
    currentSession (perform env op s).2 = Some c'
    /\ id c' = id c /\ startTime c' = startTime c
    /\ phoneNumber c' = phoneNumber c /\ networkCode c' = networkCode c
    /\ messages c `prefix_of` messages c'.
Proof.
  intros Hc Hop.
  destruct op as [input| | | |n|n| |k]; try discriminate;
    unfold_handlers; simpl; rewrite ?Hc; simpl; split_cases.
  all: eexists; (split; [first [reflexivity | eassumption]|]); simpl; repeat split;
    try reflexivity; rewrite <- ?app_assoc; try apply prefix_app_r; reflexivity.
Qed.

(** X2. Dials, ending the session, opening or closing the history and
    changes of configuration never replace the session on display: after
    any sequence of them it has the identifier, the start time, the phone
    number and the network code it had, and the messages it had are the
    first of the messages it has. *)
Theorem session_on_display_keeps_identity
  (env : Env) (ops : list Operation) (s : State) (c : USSDSession) :
  currentSession s = Some c ->
  forallb keepsSession ops = true ->
  exists c',
    currentSession (performAll env ops s) = Some c'
    /\ id c' = id c /\ startTime c' = startTime c
    /\ phoneNumber c' = phoneNumber c /\ networkCode c' = networkCode c
    /\ messages c `prefix_of` messages c'.
Proof.
  revert s c. induction ops as [|op ops IH]; intros s c Hc Hops.
  - exists c. simpl. auto 10.
  - simpl in Hops. apply andb_prop in Hops. destruct Hops as [Hop Hops].
    destruct (perform_keeps_session env op s c Hc Hop)
      as (c1 & Hc1 & Hid & Hst & Hph & Hnw & Hpre).
    destruct (IH _ c1 Hc1 Hops) as (c' & Hc' & Hid' & Hst' & Hph' & Hnw' & Hpre').
    exists c'. simpl. split; [exact Hc'|]. repeat split; try congruence.
    etransitivity; eassumption.
Qed.

(** The ended session of [Scenario.ended], dialled into under another
    configuration, ended again and looked up in the history. *)
Lemma session_identity_witness :
  exists c',
    currentSession
      (performAll Scenario.reliable
         [Submit "1"; SetConfig Cases.renamed; Submit "2"; EndSession; ToggleHistory]
         Scenario.ended) = Some c'
    /\ id c' = id Scenario.endedSession
    /\ startTime c' = startTime Scenario.endedSession
    /\ phoneNumber c' = phoneNumber Scenario.endedSession
    /\ networkCode c' = networkCode Scenario.endedSession
    /\ messages Scenario.endedSession `prefix_of` messages c'.
Proof.
  apply (session_on_display_keeps_identity Scenario.reliable
           [Submit "1"; SetConfig Cases.renamed; Submit "2"; EndSession; ToggleHistory]
           Scenario.ended Scenario.endedSession).
  - vm_compute. reflexivity.
  - reflexivity.
Defined.

(** ** What a call reads of the configuration *)

(** X3. [handleUSSDRequest] reads the endpoint, the phone number and the
    network code of the configuration and nothing else: under two
    configurations that agree on these three, whatever their [sessionId]
    and [timeout], the call ends the same way, with the same session, log
    and database. *)

Theorem sessionId_and_timeout_of_config_are_not_read
  (env : Env) (input : string) (s : State) (k1 k2 : USSDConfig) :
  cfg_endpoint k1 = cfg_endpoint k2 ->
  cfg_phoneNumber k1 = cfg_phoneNumber k2 ->
  cfg_networkCode k1 = cfg_networkCode k2 ->
  handleUSSDRequest env input (withConfig k2 s)
  = ((handleUSSDRequest env input (withConfig k1 s)).1,
     withConfig k2 (handleUSSDRequest env input (withConfig k1 s)).2).
Proof.
  destruct k1 as [e1 i1 p1 n1 t1], k2 as [e2 i2 p2 n2 t2]. simpl.
  intros <- <- <-.
  unfold withConfig. unfold_handlers. simpl.
  repeat step_goal; reflexivity.
Qed.

(** The first dial under a configuration with a session identifier of
    its own and a timeout of one millisecond. *)
Lemma config_override_witness :
  handleUSSDRequest Scenario.reliable "*123#"
    (withConfig Cases.renamed (Scenario.opened Scenario.reliable))
  = ((handleUSSDRequest Scenario.reliable "*123#"
        (withConfig Scenario.config (Scenario.opened Scenario.reliable))).1,
     withConfig Cases.renamed
       (handleUSSDRequest Scenario.reliable "*123#"
          (withConfig Scenario.config (Scenario.opened Scenario.reliable))).2).
Proof.
  apply (sessionId_and_timeout_of_config_are_not_read Scenario.reliable "*123#"
           (Scenario.opened Scenario.reliable) Scenario.config Cases.renamed).
  - reflexivity.
  - reflexivity.
  - reflexivity.
Defined.

(** X4. The request sent by a call goes to the configured endpoint,
    carries the input as it was given and the configured phone number as
    both [userID] and [msisdn], and names as [sessionID] the identifier of
    the session in memory after the call: the one of the session that was
    on display, or for a new session the reading of the clock at its
    creation. *)
Theorem payload_names_session_and_configured_number
  (env : Env) (input : string) (s : State) (x : Exchange) :
  sent (handleUSSDRequest env input s).2 = sent s ++ [x] ->
  url x = cfg_endpoint (config s)
  /\ userID (payload x) = cfg_phoneNumber (config s)
  /\ msisdn (payload x) = cfg_phoneNumber (config s)
  /\ userData (payload x) = input
  /\ outcome x = gateway env (length (sent s)) (url x) (payload x)
  /\ id <$> currentSession (handleUSSDRequest env input s).2 = Some (sessionID (payload x))
  /\ sessionID (payload x)
     = match currentSession s with
       | Some c => id c
       | None => pretty (clock env (ticks s))
       end.
Proof.
  intros Hsent.
  destruct (exchange_took_place env input s x Hsent) as [Hep Hput].
  destruct (submit_exchange env input s Hep Hput)
    as (base & req & rsp & x' & final & Hbase & Hnew & _ & Hlog & Hurl & Hpayload & Hout
        & Hcur & Hid & _).
  rewrite Hlog in Hsent. apply app_singleton_inv in Hsent. subst x'.
  rewrite Hcur, Hpayload. simpl. rewrite Hid.
  repeat split; try assumption.
  - rewrite Hout, Hpayload. reflexivity.
  - destruct (currentSession s) as [c|].
    + now rewrite (Hbase c eq_refl).
    + now destruct (Hnew eq_refl).
Qed.

(** The first dial. *)
Lemma payload_witness :
  url Cases.firstDial = cfg_endpoint (config (Scenario.opened Scenario.reliable))
  /\ userID (payload Cases.firstDial)
     = cfg_phoneNumber (config (Scenario.opened Scenario.reliable))
  /\ msisdn (payload Cases.firstDial)
     = cfg_phoneNumber (config (Scenario.opened Scenario.reliable))
  /\ userData (payload Cases.firstDial) = "*123#"
  /\ outcome Cases.firstDial
     = gateway Scenario.reliable (length (sent (Scenario.opened Scenario.reliable)))
         (url Cases.firstDial) (payload Cases.firstDial)
  /\ id <$> currentSession
       (handleUSSDRequest Scenario.reliable "*123#" (Scenario.opened Scenario.reliable)).2
     = Some (sessionID (payload Cases.firstDial))
  /\ sessionID (payload Cases.firstDial)
     = match currentSession (Scenario.opened Scenario.reliable) with
       | Some c => id c
       | None =>
           pretty (clock Scenario.reliable (ticks (Scenario.opened Scenario.reliable)))
       end.
Proof.
  apply (payload_names_session_and_configured_number Scenario.reliable "*123#"
           (Scenario.opened Scenario.reliable) Cases.firstDial).
  vm_compute. reflexivity.
Defined.

(** ** The handlers and the database *)

(** X7. A rejection by the database never leaves [handleEndSession],
    [handleClearSession], [handleDeleteSession], [toggleHistory],
    [loadSessions] or the mount effect: each returns normally whatever the
    database does. *)
Theorem handlers_catch_database_rejections
  (env : Env) (r s : State) (session : USSDSession) (sessionId : string) :
  (handleEndSession env s).1 = Returns tt
  /\ (handleClearSession env s).1 = Returns tt
  /\ (handleDeleteSession env sessionId s).1 = Returns tt
  /\ (toggleHistory env s).1 = Returns tt
  /\ (initializeSessions env s).1 = Returns tt
  /\ (exists l, (loadSessions env r s).1 = Returns l).
Proof.
  unfold_handlers. simpl.
  do 5 (split; [repeat step_goal; reflexivity|]).
  repeat step_goal; eexists; reflexivity.
Qed.

(** X6. On a database that carries out every request, a call with an
    endpoint configured returns normally whatever the gateway does, leaves
    [isLoading] false, and leaves in the database, under the identifier of
    the session in memory, that very session. *)
Theorem submit_on_working_database
  (env : Env) (input : string) (s : State) :
  (forall k, storeFault env k = None) ->
  truthy (cfg_endpoint (config s)) = true ->
  (handleUSSDRequest env input s).1 = Returns tt
  /\ isLoading (handleUSSDRequest env input s).2 = false
  /\ exists cur,
       currentSession (handleUSSDRequest env input s).2 = Some cur
       /\ Dexie.records (db (handleUSSDRequest env input s).2)
          = <[id cur := cur]> (Dexie.records (db s)).
Proof.
  intros Hrel Hep. unfold_handlers. simpl. rewrite Hep. simpl.
  repeat (first [rewrite Hrel | step_goal]; simpl).
  all: repeat split; try reflexivity.
  all: eexists; split; [reflexivity|]; simpl; now rewrite insert_insert_eq.
Qed.

(** The first dial on a working database. *)
Lemma working_database_witness :
  (handleUSSDRequest Scenario.reliable "*123#" (Scenario.opened Scenario.reliable)).1
  = Returns tt
  /\ isLoading
       (handleUSSDRequest Scenario.reliable "*123#" (Scenario.opened Scenario.reliable)).2
     = false
  /\ exists cur,
       currentSession
         (handleUSSDRequest Scenario.reliable "*123#" (Scenario.opened Scenario.reliable)).2
       = Some cur
       /\ Dexie.records
            (db (handleUSSDRequest Scenario.reliable "*123#"
                   (Scenario.opened Scenario.reliable)).2)
          = <[id cur := cur]> (Dexie.records (db (Scenario.opened Scenario.reliable))).
Proof.
  apply (submit_on_working_database Scenario.reliable "*123#"
           (Scenario.opened Scenario.reliable)).
  - intros k. reflexivity.
  - vm_compute. reflexivity.
Defined.

(** X8. [handleEndSession] on a session on display: the session in
    memory gets [isActive] false and the time of the call as [updatedAt],
    nothing is sent to the gateway, and the database holds the ended
    session under its identifier when it accepts the write, and is left as
    it was when it rejects it. *)
Theorem endSession_effect (env : Env) (s : State) (c : USSDSession) :
  currentSession s = Some c ->
  exists ended,
    currentSession (handleEndSession env s).2 = Some ended
    /\ ended = withMessages c (messages c) false (clock env (ticks s))
    /\ sent (handleEndSession env s).2 = sent s
    /\ Dexie.records (db (handleEndSession env s).2)
       = match storeFault env (Dexie.requests (db s)) with
         | None => <[id c := ended]> (Dexie.records (db s))
         | Some _ => Dexie.records (db s)
         end.
Proof.
  intros Hc. unfold_handlers. simpl. rewrite Hc. simpl.
  repeat step_goal; eexists; repeat split; reflexivity.
Qed.

(** The session of [Scenario.ended], ended once more. *)
Lemma endSession_witness :
  exists ended,
    currentSession (handleEndSession Scenario.reliable Scenario.ended).2 = Some ended
    /\ ended
       = withMessages Scenario.endedSession (messages Scenario.endedSession) false
           (clock Scenario.reliable (ticks Scenario.ended))
    /\ sent (handleEndSession Scenario.reliable Scenario.ended).2 = sent Scenario.ended
    /\ Dexie.records (db (handleEndSession Scenario.reliable Scenario.ended).2)
       = match storeFault Scenario.reliable (Dexie.requests (db Scenario.ended)) with
         | None => <[id Scenario.endedSession := ended]> (Dexie.records (db Scenario.ended))
         | Some _ => Dexie.records (db Scenario.ended)
         end.
Proof.
  apply (endSession_effect Scenario.reliable Scenario.ended Scenario.endedSession).
  vm_compute. reflexivity.
Defined.

(** X9. [handleClearSession] on a session on display: when the database
    accepts the deletion the record is gone and no session is on display;
    when it rejects it the session stays on display, and the records and
    the history are as they were. *)
Theorem clearSession_effect (env : Env) (s : State) (c : USSDSession) :
  currentSession s = Some c ->
  match storeFault env (Dexie.requests (db s)) with
  | None =>
      currentSession (handleClearSession env s).2 = None
      /\ Dexie.records (db (handleClearSession env s).2)
         = delete (id c) (Dexie.records (db s))
  | Some _ =>
      currentSession (handleClearSession env s).2 = Some c
      /\ Dexie.records (db (handleClearSession env s).2) = Dexie.records (db s)
      /\ sessions (handleClearSession env s).2 = sessions s
  end.
Proof.
  intros Hc. unfold_handlers. simpl. rewrite Hc. simpl.
  repeat step_goal; repeat split; assumption || reflexivity.
Qed.

(** The session of [Scenario.ended], cleared while IndexedDB is not
    available. *)
Lemma clearSession_witness :
  match storeFault Scenario.noStore (Dexie.requests (db Scenario.ended)) with
  | None =>
      currentSession (handleClearSession Scenario.noStore Scenario.ended).2 = None
      /\ Dexie.records (db (handleClearSession Scenario.noStore Scenario.ended).2)
         = delete (id Scenario.endedSession) (Dexie.records (db Scenario.ended))
  | Some _ =>
      currentSession (handleClearSession Scenario.noStore Scenario.ended).2
      = Some Scenario.endedSession
      /\ Dexie.records (db (handleClearSession Scenario.noStore Scenario.ended).2)
         = Dexie.records (db Scenario.ended)
      /\ sessions (handleClearSession Scenario.noStore Scenario.ended).2
         = sessions Scenario.ended
  end.
Proof.
  apply (clearSession_effect Scenario.noStore Scenario.ended Scenario.endedSession).
  vm_compute. reflexivity.
Defined.

(** X10. [handleDeleteSession]: when the database accepts the deletion
    the record of that identifier is gone, and the session on display is
    put away exactly when it has that identifier; when the database
    rejects it nothing changes in memory or in the records. *)
Theorem deleteSession_effect (env : Env) (s : State) (sessionId : string) :
  match storeFault env (Dexie.requests (db s)) with
  | None =>
      Dexie.records (db (handleDeleteSession env sessionId s).2)
      = delete sessionId (Dexie.records (db s))
      /\ currentSession (handleDeleteSession env sessionId s).2
         = match currentSession s with
           | Some c => if bool_decide (id c = sessionId) then None else Some c
           | None => None
           end
  | Some _ =>
      currentSession (handleDeleteSession env sessionId s).2 = currentSession s
      /\ Dexie.records (db (handleDeleteSession env sessionId s).2) = Dexie.records (db s)
      /\ sessions (handleDeleteSession env sessionId s).2 = sessions s
  end.
Proof.
  unfold_handlers. simpl.
  destruct (currentSession s) as [c|] eqn:Hc; simpl.
  - destruct (decide (id c = sessionId)) as [Heq|Hne].
    + rewrite !bool_decide_eq_true_2 by congruence.
      repeat step_goal; repeat split; reflexivity.
    + rewrite !bool_decide_eq_false_2 by congruence.
      repeat step_goal; repeat split; reflexivity.
  - repeat step_goal; repeat split; reflexivity.
Qed.

(** ** Loading the history *)

(** X11. Called from a render that is not loading, on a database that
    carries out the request, [loadSessions] returns what it leaves in
    [sessions]: every record of the table and nothing else, as many as
    the table has, ordered by [updatedAt] from the latest on, a record
    without [updatedAt] counting as time 0; [isLoading] ends false and no
    warning is set. *)
Theorem loadSessions_lists_the_table (env : Env) (r s : State) :
  isLoading r = false ->
  storeFault env (Dexie.requests (db s)) = None ->
  (loadSessions env r s).1 = Returns (sessions (loadSessions env r s).2)
  /\ (forall c, c ∈ sessions (loadSessions env r s).2
                <-> exists k, Dexie.records (db s) !! k = Some c)
  /\ length (sessions (loadSessions env r s).2) = size (Dexie.records (db s))
  /\ StronglySorted
       (fun a b => default 0 (updatedAt b) <= default 0 (updatedAt a))
       (sessions (loadSessions env r s).2)
  /\ isLoading (loadSessions env r s).2 = false
  /\ dbError (loadSessions env r s).2 = dbError s.
Proof.
  intros Hr Hfault. unfold_handlers. simpl. rewrite Hr. simpl. rewrite Hfault. simpl.
  split; [reflexivity|]. split; [|split; [|split; [|split; reflexivity]]].
  - intros c. rewrite sort_Permutation. split.
    + apply inKeyOrder_elem_of.
    + intros [k Hk]. eapply inKeyOrder_complete. exact Hk.
  - rewrite sort_Permutation. apply inKeyOrder_length.
  - apply (sort_descending (fun c => default 0 (updatedAt c))).
Qed.

(** The history reloaded on the page of [Scenario.ended]. *)
Lemma loadSessions_witness :
  (loadSessions Scenario.reliable Scenario.ended Scenario.ended).1
  = Returns (sessions (loadSessions Scenario.reliable Scenario.ended Scenario.ended).2)
  /\ (forall c, c ∈ sessions (loadSessions Scenario.reliable Scenario.ended Scenario.ended).2
                <-> exists k, Dexie.records (db Scenario.ended) !! k = Some c)
  /\ length (sessions (loadSessions Scenario.reliable Scenario.ended Scenario.ended).2)
     = size (Dexie.records (db Scenario.ended))
  /\ StronglySorted
       (fun a b => default 0 (updatedAt b) <= default 0 (updatedAt a))
       (sessions (loadSessions Scenario.reliable Scenario.ended Scenario.ended).2)
  /\ isLoading (loadSessions Scenario.reliable Scenario.ended Scenario.ended).2 = false
  /\ dbError (loadSessions Scenario.reliable Scenario.ended Scenario.ended).2
     = dbError Scenario.ended.
Proof.
  apply (loadSessions_lists_the_table Scenario.reliable Scenario.ended Scenario.ended).
  - vm_compute. reflexivity.
  - reflexivity.
Defined.

(** X13. Mounting the page returns normally with no session on display,
    [isLoading] false and the records untouched.  The warning is set
    exactly when the database rejects the request, and it is the one of
    [loadSessions]: the warning of the mount effect itself is never
    shown. *)
Theorem mounting_never_reports_initialization_failure
  (env : Env) (d : Dexie.State USSDSession) :
  (initializeSessions env (initialState d)).1 = Returns tt
  /\ dbError (initializeSessions env (initialState d)).2
     = match storeFault env (Dexie.requests d) with
       | None => None
       | Some _ =>
           Some "Failed to load session history. Please refresh the page to try again."
       end
  /\ dbError (initializeSessions env (initialState d)).2
     <> Some "Failed to initialize database. Session history will not be saved."
  /\ currentSession (initializeSessions env (initialState d)).2 = None
  /\ isLoading (initializeSessions env (initialState d)).2 = false
  /\ Dexie.records (db (initializeSessions env (initialState d)).2) = Dexie.records d.
Proof.
  unfold_handlers. simpl.
  destruct (storeFault env (Dexie.requests d)); simpl; repeat split; discriminate.
Qed.

(** ** The dial pad *)

(** X16. With an input that is not blank, [handleCall] (and [handleSubmit],
    which does the same) hands the input to [onDial] as typed, not
    trimmed.  When [onDial] returns, the input is cleared; when it throws,
    the input is kept and the rejection leaves the handler.  Either way the
    pad's own [isLoading] ends false. *)
Theorem handleCall_outcome {P : Type} (onDial : string -> Async P unit)
  (d : PhoneDialer.State P) :
  truthy (trim (PhoneDialer.input d)) = true ->
  PhoneDialer.handleCall onDial d
  = match onDial (PhoneDialer.input d) (PhoneDialer.parent d) with
    | (Returns _, p) => (Returns tt, PhoneDialer.mkState "" false p)
    | (Throws e, p) => (Throws e, PhoneDialer.mkState (PhoneDialer.input d) false p)
    end
  /\ PhoneDialer.handleSubmit onDial d = PhoneDialer.handleCall onDial d.
Proof.
  intros Hinput. split; [|reflexivity].
  unfold PhoneDialer.handleCall, PhoneDialer.inParent, PhoneDialer.setIsLoading,
    PhoneDialer.setInput, bind, gets, ret, modify, tryFinally, zoom. simpl.
  rewrite Hinput. simpl.
  destruct (onDial (PhoneDialer.input d) (PhoneDialer.parent d)) as [[[]|e] p]; reflexivity.
Qed.

(** The first dial, typed into the pad. *)
Lemma handleCall_witness :
  PhoneDialer.handleCall (handleUSSDRequest Scenario.reliable) Cases.typed
  = match
      handleUSSDRequest Scenario.reliable (PhoneDialer.input Cases.typed)
        (PhoneDialer.parent Cases.typed)
    with
    | (Returns _, p) => (Returns tt, PhoneDialer.mkState "" false p)
    | (Throws e, p) =>
        (Throws e, PhoneDialer.mkState (PhoneDialer.input Cases.typed) false p)
    end
  /\ PhoneDialer.handleSubmit (handleUSSDRequest Scenario.reliable) Cases.typed
     = PhoneDialer.handleCall (handleUSSDRequest Scenario.reliable) Cases.typed.
Proof.
  apply (handleCall_outcome (handleUSSDRequest Scenario.reliable) Cases.typed).
  vm_compute. reflexivity.
Defined.

Lemma string_app_length (a b : string) :
  String.length (a +:+ b) = (String.length a + String.length b)%nat.
Proof. induction a as [|c a IH]; simpl; [reflexivity|]. now rewrite IH. Qed.

Lemma dropLast_app (s : string) (c : Ascii.ascii) :
  PhoneDialer.dropLast (s +:+ String c "") = s.
Proof.
  induction s as [|c' s IH]; [reflexivity|].
  simpl. simpl in IH. rewrite IH. now destruct s.
Qed.

Lemma dropLast_length (s : string) :
  String.length (PhoneDialer.dropLast s) = pred (String.length s).
Proof.
  induction s as [|c s IH]; [reflexivity|].
  destruct s as [|c' s]; [reflexivity|].
  assert (Hcons : PhoneDialer.dropLast (String c (String c' s))
                  = String c (PhoneDialer.dropLast (String c' s))) by reflexivity.
  rewrite Hcons. cbn [String.length]. rewrite IH. reflexivity.
Qed.

(** X17. [handleKeyPress]: a key of one character is appended to the
    input and ["backspace"] right after it gives back the state before;
    ["backspace"] shortens the input by one character and leaves the empty
    input empty; ["clear"] empties it; no key touches the state of the
    parent. *)
Theorem keypad_edits {P : Type} (d : PhoneDialer.State P) (c : Ascii.ascii) :
  (PhoneDialer.handleKeyPress (String c "") ;; PhoneDialer.handleKeyPress "backspace") d
  = (Returns tt, d)
  /\ PhoneDialer.input (PhoneDialer.handleKeyPress (String c "") d).2
     = PhoneDialer.input d +:+ String c ""
  /\ String.length (PhoneDialer.input (PhoneDialer.handleKeyPress "backspace" d).2)
     = pred (String.length (PhoneDialer.input d))
  /\ PhoneDialer.input (PhoneDialer.handleKeyPress "clear" d).2 = ""
  /\ (forall key, PhoneDialer.parent (PhoneDialer.handleKeyPress key d).2 = PhoneDialer.parent d).
Proof.
  destruct d as [i l p].
  unfold PhoneDialer.handleKeyPress, PhoneDialer.setInput, bind, gets, ret, modify. simpl.
  assert (Hc : bool_decide (String c "" = "clear") = false)
    by (apply bool_decide_eq_false_2; discriminate).
  assert (Hb : bool_decide (String c "" = "backspace") = false)
    by (apply bool_decide_eq_false_2; discriminate).
  rewrite Hc, Hb. simpl.
  repeat split.
  - now rewrite dropLast_app.
  - apply dropLast_length.
  - intros key. repeat step_goal; reflexivity.
Qed.

(** X18. At rest the call button reads ["Dial"] exactly when the request
    that its call sends carries [newSession: true], and ["Send"]
    otherwise. *)
Theorem call_button_reads_dial_iff_newSession
  (env : Env) (input : string) (s : State) (x : Exchange) :
  sent (handleUSSDRequest env input s).2 = sent s ++ [x] ->
  PhoneDialer.callLabel (PhoneDialer.mkState input false s) (Display.isSessionActive s)
  = "Dial"
  <-> newSession (payload x) = true.
Proof.
  intros Hsent.
  destruct (exchange_took_place env input s x Hsent) as [Hep Hput].
  destruct (submit_exchange env input s Hep Hput)
    as (base & req & rsp & x' & final & Hbase & _ & Hms & Hlog & _ & Hpayload & _).
  rewrite Hlog in Hsent. apply app_singleton_inv in Hsent. subst x'.
  rewrite Hpayload. simpl. unfold PhoneDialer.callLabel, Display.isSessionActive. simpl.
  unfold priorMessages in Hms.
  destruct (currentSession s) as [c|]; simpl.
  - rewrite (Hbase c eq_refl). destruct (bool_decide (length (messages c) = 0%nat)); simpl;
      split; intros; congruence.
  - rewrite Hms. simpl. split; reflexivity.
Qed.

(** The first dial: the button reads ["Dial"]. *)
Lemma call_button_witness :
  PhoneDialer.callLabel
    (PhoneDialer.mkState "*123#" false (Scenario.opened Scenario.reliable))
    (Display.isSessionActive (Scenario.opened Scenario.reliable))
  = "Dial"
  <-> newSession (payload Cases.firstDial) = true.
Proof.
  apply (call_button_reads_dial_iff_newSession Scenario.reliable "*123#"
           (Scenario.opened Scenario.reliable) Cases.firstDial).
  vm_compute. reflexivity.
Defined.

Lemma string_app_empty_r (a : string) : a +:+ "" = a.
Proof.
  induction a as [|c a IH]; [reflexivity|].
  change (String c a +:+ "") with (String c (a +:+ "")). now rewrite IH.
Qed.

Lemma substring_prefix_length (n : nat) (s : string) :
  String.length (String.substring 0 n s) = Nat.min n (String.length s).
Proof.
  revert s. induction n as [|n IH]; intros [|c s]; simpl; try reflexivity.
  now rewrite IH.
Qed.

Lemma substring_prefix_all (n : nat) (s : string) :
  (String.length s <= n)%nat -> String.substring 0 n s = s.
Proof.
  revert s. induction n as [|n IH]; intros [|c s] H; simpl in *; try reflexivity; try lia.
  rewrite IH; [reflexivity|lia].
Qed.

Lemma substring_suffix (k m : nat) (s : string) :
  (String.length s <= k + m)%nat ->
  exists p, s = p +:+ String.substring k m s
            /\ String.length p = Nat.min k (String.length s).
Proof.
  revert s. induction k as [|k IH]; intros s H.
  - exists "". simpl in H. rewrite substring_prefix_all by exact H. split; reflexivity.
  - destruct s as [|c s].
    + exists "". simpl. destruct m; split; reflexivity.
    + simpl in H. destruct (IH s) as (p & Hp & Hl); [lia|].
      exists (String c p). split; [rewrite Hp at 1; reflexivity|simpl; now rewrite Hl].
Qed.

(** ** What the page shows of a session *)

(** X19. The title of a history entry is never empty and has at most 23
    characters; it is the text of the first message when that text has 1
    to 20 characters, and ["New Session"] when the session has no
    message. *)
Theorem entryTitle_is_short (session : USSDSession) :
  (String.length (Display.entryTitle session) <= 23)%nat
  /\ Display.entryTitle session <> ""
  /\ (forall m, head (messages session) = Some m ->
        (0 < String.length (msg_text m) <= 20)%nat ->
        Display.entryTitle session = msg_text m)
  /\ (head (messages session) = None -> Display.entryTitle session = "New Session").
Proof.
  unfold Display.entryTitle.
  destruct (head (messages session)) as [m|]; simpl.
  2: { split; [vm_compute; lia|]. split; [discriminate|]. split; [discriminate|reflexivity]. }
  pose proof (substring_prefix_length 20 (msg_text m)) as Hlen.
  destruct (String.substring 0 20 (msg_text m)) as [|a t] eqn:Hsub.
  - (* the text is empty *)
    assert (Hempty : String.length (msg_text m) = 0%nat) by (cbn [String.length] in Hlen; lia).
    rewrite Hempty. simpl. repeat split; try discriminate; try lia.
    intros m' Hm' Hr. injection Hm' as <-. lia.
  - unfold or_else. cbn [truthy].
    destruct (decide (20 < String.length (msg_text m))%nat) as [Hlong|Hshort].
    + rewrite bool_decide_eq_true_2 by exact Hlong.
      repeat split.
      * rewrite string_app_length, Hlen. cbn [String.length]. lia.
      * discriminate.
      * intros m' Hm' Hr. injection Hm' as <-. lia.
      * discriminate.
    + rewrite bool_decide_eq_false_2 by exact Hshort.
      assert (Hall : String a t = msg_text m).
      { rewrite <- Hsub. apply substring_prefix_all. lia. }
      repeat split.
      * rewrite string_app_length, Hlen. cbn [String.length]. lia.
      * discriminate.
      * intros m' Hm' Hr. injection Hm' as <-. rewrite Hall.
        apply string_app_empty_r.
      * discriminate.
Qed.

(** X20. The session tag shown by [USSDDisplay] is the end of the
    identifier: its last six characters, or all of it when it is
    shorter. *)
Theorem sessionTag_is_the_end_of_the_identifier (session : USSDSession) :
  exists front,
    id session = front +:+ Display.sessionTag session
    /\ String.length (Display.sessionTag session) = Nat.min 6 (String.length (id session)).
Proof.
  unfold Display.sessionTag, Display.sliceFromEnd.
  destruct (substring_suffix (String.length (id session) - 6) 6 (id session)) as (p & Hp & Hl);
    [lia|].
  exists p. split; [exact Hp|].
  apply (f_equal String.length) in Hp. rewrite string_app_length, Hl in Hp. lia.
Qed.

(** ** The helpers of [db.ts] *)

(** X21. On a database that carries out the requests, [getAllSessions]
    returns every record of the table and nothing else, as many as the
    table has, and leaves the table as it is; after [clearSessions] it
    returns the empty list. *)
Theorem getAllSessions_lists_every_record
  (fault : nat -> option Thrown) (st : Dexie.State Db.USSDSession) :
  fault (Dexie.requests st) = None ->
  fault (S (Dexie.requests st)) = None ->
  (exists l,
     (Db.getAllSessions fault st).1 = Returns l
     /\ (forall v, v ∈ l <-> exists k, Dexie.records st !! k = Some v)
     /\ length l = size (Dexie.records st)
     /\ Dexie.records (Db.getAllSessions fault st).2 = Dexie.records st)
  /\ ((Db.clearSessions fault ;; Db.getAllSessions fault) st).1 = Returns [].
Proof.
  intros H0 H1.
  unfold Db.getAllSessions, Db.clearSessions, Dexie.toArray, Dexie.clear, Dexie.request,
    bind, ret.
  simpl. rewrite H0. simpl. rewrite H1. simpl. split.
  - eexists. split; [reflexivity|]. split; [|split; [apply inKeyOrder_length|reflexivity]].
    intros v. split.
    + apply inKeyOrder_elem_of.
    + intros [k Hk]. eapply inKeyOrder_complete. exact Hk.
  - reflexivity.
Qed.

(** The store of [Scenario.store]. *)
Lemma getAllSessions_witness :
  (exists l,
     (Db.getAllSessions (fun _ => None) Scenario.store).1 = Returns l
     /\ (forall v, v ∈ l <-> exists k, Dexie.records Scenario.store !! k = Some v)
     /\ length l = size (Dexie.records Scenario.store)
     /\ Dexie.records (Db.getAllSessions (fun _ => None) Scenario.store).2
        = Dexie.records Scenario.store)
  /\ ((Db.clearSessions (fun _ => None) ;; Db.getAllSessions (fun _ => None))
        Scenario.store).1 = Returns [].
Proof.
  apply (getAllSessions_lists_every_record (fun _ => None) Scenario.store).
  - reflexivity.
  - reflexivity.
Defined.

(** X22. When the database rejects a request, each of the five helpers
    rejects with the same error, and the records are left as they were. *)
Theorem helpers_reject_with_the_database
  (fault : nat -> option Thrown) (st : Dexie.State Db.USSDSession)
  (session : Db.USSDSession) (i : string) (e : Thrown) :
  fault (Dexie.requests st) = Some e ->
  (Db.saveSession fault session st).1 = Throws e
  /\ (Db.getSession fault i st).1 = Throws e
  /\ (Db.deleteSession fault i st).1 = Throws e
  /\ (Db.getAllSessions fault st).1 = Throws e
  /\ (Db.clearSessions fault st).1 = Throws e
  /\ Dexie.records (Db.saveSession fault session st).2 = Dexie.records st
  /\ Dexie.records (Db.deleteSession fault i st).2 = Dexie.records st
  /\ Dexie.records (Db.clearSessions fault st).2 = Dexie.records st.
Proof.
  intros H.
  unfold Db.saveSession, Db.getSession, Db.deleteSession, Db.getAllSessions,
    Db.clearSessions, Dexie.put, Dexie.get, Dexie.delete, Dexie.toArray, Dexie.clear,
    Dexie.request, bind, ret.
  simpl. rewrite H. simpl. auto 10.
Qed.

(** The store of [Scenario.store] while IndexedDB is not available. *)
Lemma helpers_reject_witness :
  (Db.saveSession Cases.unavailable Scenario.saved Scenario.store).1
  = Throws (ErrorObject "IndexedDB API missing")
  /\ (Db.getSession Cases.unavailable "17" Scenario.store).1
     = Throws (ErrorObject "IndexedDB API missing")
  /\ (Db.deleteSession Cases.unavailable "17" Scenario.store).1
     = Throws (ErrorObject "IndexedDB API missing")
  /\ (Db.getAllSessions Cases.unavailable Scenario.store).1
     = Throws (ErrorObject "IndexedDB API missing")
  /\ (Db.clearSessions Cases.unavailable Scenario.store).1
     = Throws (ErrorObject "IndexedDB API missing")
  /\ Dexie.records (Db.saveSession Cases.unavailable Scenario.saved Scenario.store).2
     = Dexie.records Scenario.store
  /\ Dexie.records (Db.deleteSession Cases.unavailable "17" Scenario.store).2
     = Dexie.records Scenario.store
  /\ Dexie.records (Db.clearSessions Cases.unavailable Scenario.store).2
     = Dexie.records Scenario.store.
Proof.
  apply (helpers_reject_with_the_database Cases.unavailable Scenario.store Scenario.saved
           "17" (ErrorObject "IndexedDB API missing")).
  reflexivity.
Defined.

(** X23. On a database that carries out the requests, [saveSession]
    returns the identifier of the session; the table grows by one record
    when that identifier was absent and keeps its size when it was present;
    the records of the other identifiers are untouched; saving the same
    session twice leaves the records that saving it once leaves. *)
Theorem saveSession_upserts
  (fault : nat -> option Thrown) (st : Dexie.State Db.USSDSession)
  (session : Db.USSDSession) :
  fault (Dexie.requests st) = None ->
  fault (S (Dexie.requests st)) = None ->
  (Db.saveSession fault session st).1 = Returns (Db.id session)
  /\ size (Dexie.records (Db.saveSession fault session st).2)
     = match Dexie.records st !! Db.id session with
       | Some _ => size (Dexie.records st)
       | None => S (size (Dexie.records st))
       end
  /\ (forall k, k <> Db.id session ->
        Dexie.records (Db.saveSession fault session st).2 !! k = Dexie.records st !! k)
  /\ Dexie.records ((Db.saveSession fault session ;; Db.saveSession fault session) st).2
     = Dexie.records (Db.saveSession fault session st).2.
Proof.
  intros H0 H1.
  unfold Db.saveSession, Dexie.put, Dexie.request, bind, ret.
  simpl. rewrite H0. simpl. rewrite H1. simpl.
  split; [reflexivity|]. split; [|split].
  - destruct (Dexie.records st !! Db.id session) as [old|] eqn:Hold.
    + rewrite <- (insert_delete_id (Dexie.records st) (Db.id session) old Hold) at 2.
      rewrite <- insert_delete_eq.
      rewrite !map_size_insert_None by apply lookup_delete_eq. reflexivity.
    + now apply map_size_insert_None.
  - intros k Hk. now apply lookup_insert_ne.
  - apply insert_insert_eq.
Qed.

(** The session of [Scenario.store] saved again. *)
Lemma saveSession_witness :
  (Db.saveSession (fun _ => None) Scenario.saved Scenario.store).1
  = Returns (Db.id Scenario.saved)
  /\ size (Dexie.records (Db.saveSession (fun _ => None) Scenario.saved Scenario.store).2)
     = match Dexie.records Scenario.store !! Db.id Scenario.saved with
       | Some _ => size (Dexie.records Scenario.store)
       | None => S (size (Dexie.records Scenario.store))
       end
  /\ (forall k, k <> Db.id Scenario.saved ->
        Dexie.records (Db.saveSession (fun _ => None) Scenario.saved Scenario.store).2 !! k
        = Dexie.records Scenario.store !! k)
  /\ Dexie.records
       ((Db.saveSession (fun _ => None) Scenario.saved ;;
         Db.saveSession (fun _ => None) Scenario.saved) Scenario.store).2
     = Dexie.records (Db.saveSession (fun _ => None) Scenario.saved Scenario.store).2.
Proof.
  apply (saveSession_upserts (fun _ => None) Scenario.store Scenario.saved).
  - reflexivity.
  - reflexivity.
Defined.

(** ** The hook [useIndexedDB] *)

(** The timer of a render that has no handle and is loading arms
    itself again for ever. *)
Lemma checkDB_never_settles (h : UseIndexedDB.Render) (firings : nat) :
  UseIndexedDB.db h = None -> UseIndexedDB.isLoading h = true ->
  UseIndexedDB.checkDB h firings = None.
Proof.
  intros Hdb Hl. induction firings as [|n IH]; simpl; [reflexivity|].
  now rewrite Hdb, Hl.
Qed.

(** X24. Whatever the number of times its timer has fired, the promise
    of [waitForDB] is where an immediate answer puts it: resolved when
    the render has a handle, rejected with 'Database not initialized' when
    it has none and is not loading, and never settled when it has none and
    is loading.  It is never rejected with 'Failed to initialize
    database'. *)
Theorem waitForDB_settles_at_once_or_never (h : UseIndexedDB.Render) (firings : nat) :
  UseIndexedDB.waitForDBAfter h firings
  = match UseIndexedDB.waitForDB h with
    | UseIndexedDB.Settled c => Some c
    | UseIndexedDB.Pending => None
    end
  /\ UseIndexedDB.waitForDBAfter h firings
     <> Some (Throws (ErrorObject "Failed to initialize database")).
Proof.
  unfold UseIndexedDB.waitForDBAfter, UseIndexedDB.waitForDB.
  destruct (UseIndexedDB.db h) as [d|] eqn:Hdb; [split; [reflexivity|discriminate]|].
  destruct (UseIndexedDB.isLoading h) eqn:Hl; [|split; [reflexivity|discriminate]].
  rewrite (checkDB_never_settles h firings Hdb Hl). split; [reflexivity|discriminate].
Qed.

(** ** A change of configuration in mid-session *)

(** X26. When the phone number is changed in the configuration panel
    while a session is on display, the next request carries the new
    number as [userID] and [msisdn], under the identifier of that session
    and to the same endpoint, and the session keeps the phone number it
    was created with. *)
Theorem phone_number_change_reaches_the_request_only
  (env : Env) (input v : string) (s : State) (c : USSDSession) (x : Exchange) :
  currentSession s = Some c ->
  sent (handleUSSDRequest env input
          (setConfig (ConfigPanel.handleConfigChange (config s) (ConfigPanel.phoneNumber v))
             s).2).2
  = sent s ++ [x] ->
  userID (payload x) = v
  /\ msisdn (payload x) = v
  /\ sessionID (payload x) = id c
  /\ url x = cfg_endpoint (config s)
  /\ phoneNumber <$> currentSession
       (handleUSSDRequest env input
          (setConfig (ConfigPanel.handleConfigChange (config s) (ConfigPanel.phoneNumber v))
             s).2).2
     = Some (phoneNumber c).
Proof.
  intros Hc Hsent.
  set (s1 := (setConfig _ s).2) in *.
  assert (Hc1 : currentSession s1 = Some c) by exact Hc.
  change (sent s) with (sent s1) in Hsent.
  destruct (exchange_took_place env input s1 x Hsent) as [Hep Hput].
  destruct (submit_exchange env input s1 Hep Hput)
    as (base & req & rsp & x' & final & Hbase & _ & _ & Hlog & Hurl & Hpayload & _).
  rewrite Hlog in Hsent. apply app_singleton_inv in Hsent. subst x'.
  rewrite (Hbase c Hc1) in Hpayload.
  destruct (perform_keeps_session env (Submit input) s1 c Hc1 eq_refl)
    as (c' & Hc' & _ & _ & Hph & _).
  simpl in Hc'. rewrite Hc'. simpl. rewrite Hph, Hpayload, Hurl. auto.
Qed.

(** The number is changed to "+2" on the page of [Scenario.ended], and
    "1" is dialled. *)
Lemma phone_number_change_witness :
  userID (payload Cases.secondDial) = "+2"
  /\ msisdn (payload Cases.secondDial) = "+2"
  /\ sessionID (payload Cases.secondDial) = id Scenario.endedSession
  /\ url Cases.secondDial = cfg_endpoint (config Scenario.ended)
  /\ phoneNumber <$> currentSession
       (handleUSSDRequest Scenario.reliable "1"
          (setConfig
             (ConfigPanel.handleConfigChange (config Scenario.ended)
                (ConfigPanel.phoneNumber "+2"))
             Scenario.ended).2).2
     = Some (phoneNumber Scenario.endedSession).
Proof.
  apply (phone_number_change_reaches_the_request_only Scenario.reliable "1" "+2"
           Scenario.ended Scenario.endedSession Cases.secondDial).
  - vm_compute. reflexivity.
  - vm_compute. reflexivity.
Defined.

(** ** Instances of the properties above *)

(** The first dial on a working database. *)
Lemma accepted_write_witness :
  exists cur req rsp,
    currentSession
      (handleUSSDRequest Scenario.reliable "*123#" (Scenario.opened Scenario.reliable)).2
    = Some cur
    /\ messages cur = priorMessages (Scenario.opened Scenario.reliable) ++ [req; rsp]
    /\ msg_type req = request /\ msg_text req = "*123#"
    /\ msg_type rsp = response
    /\ msg_sessionId req = id cur /\ msg_sessionId rsp = id cur.
Proof.
  apply (accepted_write_appends_request_then_response Scenario.reliable "*123#"
           (Scenario.opened Scenario.reliable)).
  - vm_compute. reflexivity.
  - reflexivity.
Defined.

(** The history asked for while IndexedDB is not available. *)
Lemma loadSessions_rejected_witness :
  loadSessions Scenario.noStore (Scenario.opened Scenario.noStore)
    (Scenario.opened Scenario.noStore)
  = (Returns [],
     mkState (config (Scenario.opened Scenario.noStore)) false
       (currentSession (Scenario.opened Scenario.noStore))
       (sessions (Scenario.opened Scenario.noStore))
       (showHistory (Scenario.opened Scenario.noStore))
       (Some "Failed to load session history. Please refresh the page to try again.")
       (ticks (Scenario.opened Scenario.noStore)) (sent (Scenario.opened Scenario.noStore))
       (Dexie.mkState (S (Dexie.requests (db (Scenario.opened Scenario.noStore))))
          (Dexie.records (db (Scenario.opened Scenario.noStore))))).
Proof.
  apply (loadSessions_rejected Scenario.noStore (Scenario.opened Scenario.noStore)
           (Scenario.opened Scenario.noStore) (ErrorObject "IndexedDB API missing")).
  - vm_compute. reflexivity.
  - reflexivity.
Defined.

(** A dial, the end of the session, a second dial, a look at the history
    and the deletion of its entry, on a working database. *)
Lemma transcripts_witness :
  allSettled
    (performAll Scenario.reliable
       [Submit "*123#"; EndSession; Submit "1"; ToggleHistory; DeleteSession 0]
       (Scenario.opened Scenario.reliable)).
Proof.
  apply (transcripts_stay_settled Scenario.reliable (fun k => eq_refl)
           [Submit "*123#"; EndSession; Submit "1"; ToggleHistory; DeleteSession 0]
           (Scenario.opened Scenario.reliable)).
  apply opened_is_settled.
Defined.

(** The first dial while IndexedDB is not available, then what the page
    still offers. *)
Lemma disabled_dialing_witness :
  offered (Submit "1")
    (performAll Scenario.noStore [EndSession; ToggleHistory; ToggleHistory; ClearSession]
       (handleUSSDRequest Scenario.noStore "*123#" (Scenario.opened Scenario.noStore)).2)
  = false.
Proof.
  apply (rejected_write_disables_dialing Scenario.noStore "*123#" "1"
           (Scenario.opened Scenario.noStore) (ErrorObject "IndexedDB API missing")
           [EndSession; ToggleHistory; ToggleHistory; ClearSession]).
  - vm_compute. reflexivity.
  - reflexivity.
  - vm_compute. reflexivity.
Defined.

(** A session saved through the hook of a render that holds the handle. *)
Lemma hook_witness :
  (exists st',
     UseIndexedDB.saveSession (fun _ => None) Cases.opened Scenario.newest
       (Dexie.mkState 0 ∅)
     = UseIndexedDB.Settled (Returns tt, st')
     /\ exists st'',
         UseIndexedDB.getSession (fun _ => None) Cases.opened (id Scenario.newest) st'
         = UseIndexedDB.Settled (Returns (Some Scenario.newest), st''))
  /\ (exists st',
       UseIndexedDB.deleteSession (fun _ => None) Cases.opened "60" (Dexie.mkState 0 ∅)
       = UseIndexedDB.Settled (Returns tt, st')
       /\ Dexie.records st' = base.delete "60" (Dexie.records (Dexie.mkState 0 ∅))
       /\ exists st'',
           UseIndexedDB.getSession (fun _ => None) Cases.opened "60" st'
           = UseIndexedDB.Settled (Returns None, st'')).
Proof.
  apply (hook_put_get_delete (fun _ => None) Cases.opened (Dexie.mkState 0 ∅)
           Scenario.newest "60").
  - reflexivity.
  - reflexivity.
  - reflexivity.
Defined.
